(** * TensorAdapter: from Arrow record batches to dense and sparse tensors

    A shallow embedding of [tfx_bsl/tfxio/tensor_adapter.py] and the
    properties its specification states about it.

    Conventions of the embedding.
    - Python exceptions are values of [Exception]; a function that can raise
      returns a [Result].
    - A [pa.Schema] is the ordered list of its fields; a [pa.RecordBatch] is
      the ordered list of its named columns, every column a list array whose
      rows are present ([Some]) or null ([None]).  The scalars inside a row
      are always present.
    - Sizes (dimensions, lengths, element counts) are natural numbers and
      [np.prod] is the exact product of the sizes.
    - Python dicts that are written by key ([result], [_type_specs]) are
      finite maps; the dict of tensor representations, which the code only
      iterates, is the list of its items in iteration order. *)

From Stdlib Require Import ZArith.
From Stdlib Require QArith.QArith_base.
From stdpp Require Import base option list strings gmap.

Local Open Scope string_scope.
Local Open Scope list_scope.

(** ** Arrow data types ([pa.DataType]) *)

Inductive ArrowType : Type :=
| int8 | int16 | int32 | int64
| uint8 | uint16 | uint32 | uint64
| float16 | float32 | float64
| binary
| string_
| bool_
| list_ (value_type : ArrowType).

#[global] Instance ArrowType_eq_dec : EqDecision ArrowType.
Proof. solve_decision. Defined.

(** [pa.types.is_list], [is_integer], [is_floating], [is_binary]. *)
Definition is_list (t : ArrowType) : bool :=
  match t with list_ _ => true | _ => false end.

Definition is_integer (t : ArrowType) : bool :=
  match t with
  | int8 | int16 | int32 | int64 | uint8 | uint16 | uint32 | uint64 => true
  | _ => false
  end.

Definition is_floating (t : ArrowType) : bool :=
  match t with float16 | float32 | float64 => true | _ => false end.

Definition is_binary (t : ArrowType) : bool :=
  match t with binary => true | _ => false end.

(** numpy dtypes, as [DataType.to_pandas_dtype] gives them, and the
    TensorFlow dtypes [tf.dtypes.as_dtype] maps them to. *)
Inductive NpDType : Type :=
| np_int8 | np_int16 | np_int32 | np_int64
| np_uint8 | np_uint16 | np_uint32 | np_uint64
| np_float16 | np_float32 | np_float64
| np_bool | np_object.

Inductive DType : Type :=
| tf_int8 | tf_int16 | tf_int32 | tf_int64
| tf_uint8 | tf_uint16 | tf_uint32 | tf_uint64
| tf_float16 | tf_float32 | tf_float64
| tf_bool | tf_string.

#[global] Instance DType_eq_dec : EqDecision DType.
Proof. solve_decision. Defined.

Definition to_pandas_dtype (t : ArrowType) : NpDType :=
  match t with
  | int8 => np_int8 | int16 => np_int16 | int32 => np_int32 | int64 => np_int64
  | uint8 => np_uint8 | uint16 => np_uint16
  | uint32 => np_uint32 | uint64 => np_uint64
  | float16 => np_float16 | float32 => np_float32 | float64 => np_float64
  | bool_ => np_bool
  | binary | string_ | list_ _ => np_object
  end.

Definition as_dtype (d : NpDType) : DType :=
  match d with
  | np_int8 => tf_int8 | np_int16 => tf_int16
  | np_int32 => tf_int32 | np_int64 => tf_int64
  | np_uint8 => tf_uint8 | np_uint16 => tf_uint16
  | np_uint32 => tf_uint32 | np_uint64 => tf_uint64
  | np_float16 => tf_float16 | np_float32 => tf_float32
  | np_float64 => tf_float64
  | np_bool => tf_bool
  | np_object => tf_string
  end.

(** [np.iinfo(dtype).min] and [.max] of the integer dtypes. *)
Definition iinfo_min (d : NpDType) : Z :=
  match d with
  | np_int8 => - 2 ^ 7 | np_int16 => - 2 ^ 15
  | np_int32 => - 2 ^ 31 | np_int64 => - 2 ^ 63
  | _ => 0
  end%Z.

Definition iinfo_max (d : NpDType) : Z :=
  match d with
  | np_int8 => 2 ^ 7 - 1 | np_int16 => 2 ^ 15 - 1
  | np_int32 => 2 ^ 31 - 1 | np_int64 => 2 ^ 63 - 1
  | np_uint8 => 2 ^ 8 - 1 | np_uint16 => 2 ^ 16 - 1
  | np_uint32 => 2 ^ 32 - 1 | np_uint64 => 2 ^ 64 - 1
  | _ => 0
  end%Z.

(** ** Schemas, arrays and record batches *)

Record Field : Type := field { name : string; type : ArrowType }.

#[global] Instance Field_eq_dec : EqDecision Field.
Proof. solve_decision. Defined.

Definition Schema : Type := list Field.

(** The scalars a row of a list column holds. *)
Inductive Value : Type :=
| IntV (z : Z)
| FloatV (q : QArith_base.Q)
| BytesV (b : string).

(** A flat [pa.Array]: its type and its values. *)
Record Array : Type := mkArray { arr_type : ArrowType; arr_values : list Value }.

(** A [pa.ListArray] of type [list_ value_type]. *)
Record ListArray : Type :=
  mkListArray { value_type : ArrowType; rows : list (option (list Value)) }.

Definition ListArray_type (a : ListArray) : ArrowType := list_ (value_type a).

(** [pa.RecordBatch.from_arrays(arrays, names)]: the schema of a batch is read
    off its columns. *)
Definition RecordBatch : Type := list (string * ListArray).

Definition RecordBatch_schema (rb : RecordBatch) : Schema :=
  map (fun c => field (fst c) (ListArray_type (snd c))) rb.

(** ** Tensor representations ([schema_pb2.TensorRepresentation]) *)

(** [TensorRepresentation.DefaultValue]: a oneof [kind] that may be unset. *)
Inductive DefaultValue : Type :=
| kind_not_set
| float_value (f : QArith_base.Q)
| int_value (z : Z)
| bytes_value (b : string)
| uint_value (z : Z).

Definition DefaultValue_WhichOneof (d : DefaultValue) : option string :=
  match d with
  | kind_not_set => None
  | float_value _ => Some "float_value"
  | int_value _ => Some "int_value"
  | bytes_value _ => Some "bytes_value"
  | uint_value _ => Some "uint_value"
  end.

(** [dense_tensor { column_name, shape { dim { size } ... }, default_value }];
    [default_value] is a message field, so [HasField] tells whether it is
    present, whatever its [kind]. *)
Record DenseTensor : Type := mkDenseTensor {
  column_name : string;
  shape_dim : list nat;
  default_value : option DefaultValue
}.

Inductive TensorRepresentation : Type :=
| rep_not_set
| dense_tensor (d : DenseTensor)
| varlen_sparse_tensor (column_name : string)
| sparse_tensor (value_column_name : string).

Definition WhichOneof (rep : TensorRepresentation) : option string :=
  match rep with
  | rep_not_set => None
  | dense_tensor _ => Some "dense_tensor"
  | varlen_sparse_tensor _ => Some "varlen_sparse_tensor"
  | sparse_tensor _ => Some "sparse_tensor"
  end.

(** Reading a member of the oneof that is not the one set gives the default
    message. *)
Definition rep_dense_tensor (rep : TensorRepresentation) : DenseTensor :=
  match rep with
  | dense_tensor d => d
  | _ => mkDenseTensor "" [] None
  end.

Definition rep_varlen_column_name (rep : TensorRepresentation) : string :=
  match rep with
  | varlen_sparse_tensor c => c
  | _ => ""
  end.

Definition HasField_default_value (d : DenseTensor) : bool :=
  match default_value d with Some _ => true | None => false end.

(** ** Type specs and converted values *)

(** [tf.TensorSpec(shape, dtype)] and [tf.SparseTensorSpec(shape, dtype)]; a
    dimension is [None] when it is unknown. *)
Inductive TypeSpec : Type :=
| TensorSpec (shape : list (option nat)) (dtype : DType)
| SparseTensorSpec (shape : list (option nat)) (dtype : DType).

(** A numpy array: shape, dtype and the elements in row-major order. *)
Record ndarray : Type := mkndarray {
  nd_shape : list nat;
  nd_dtype : NpDType;
  nd_data : list Value
}.

(** What [GetTensor] returns: a dense array, or the three arrays of a
    [SparseTensorValue] ([indices] has one row [(r, p)] per value). *)
Inductive Tensor : Type :=
| DenseValue (a : ndarray)
| SparseTensorValue (indices : list (nat * nat)) (values : ndarray)
                    (dense_shape : list nat).




(** ** Exceptions *)

Inductive Exception : Type :=
(* ValueError("Expected same schema.") *)
| ExpectedSameSchema
(* ValueError("Error raised when handling tensor {}: {}") *)
| ErrorRaisedWhenHandlingTensor (tensor_name : string) (e : Exception)
(* ValueError("Unable to convert ListArray {} to {}: size mismatch.
   expected {} elements but got {}") *)
| SizeMismatch (list_array : ListArray) (spec : TypeSpec)
               (expected_num_elements actual : nat)
(* ValueError("Unable to handle tensor {} with rep {}") *)
| UnableToHandleTensor (tensor_name : string) (rep : TensorRepresentation)
(* ValueError("Unable to handle tensor {} with rep {} against schema: {}") *)
| UnableToHandleTensorAgainstSchema (tensor_name : string)
    (rep : TensorRepresentation) (arrow_schema : Schema)
(* ValueError("Integer default value out of range: {} is set for a {}
   column") *)
| IntegerDefaultValueOutOfRange (value : Z) (value_type : ArrowType)
(* ValueError("Incompatible default value: {} is set for a {} column") *)
| IncompatibleDefaultValue (kind : option string) (value_type : ArrowType)
(* AttributeError: 'NoneType' object has no attribute 'type' *)
| NoneTypeHasNoAttributeType
(* IndexError of an index outside a schema or a batch *)
| IndexOutOfBounds
(* ValueError or TypeError of [ndarray.reshape]: the array does not have the
   number of elements of the shape, or a dimension is [None] *)
| CannotReshape (size : nat) (shape : list (option nat)).

Inductive Result (A : Type) : Type :=
| Ok (a : A)
| Raise (e : Exception).

Arguments Ok {A} a.
Arguments Raise {A} e.

#[global] Instance Result_ret : MRet Result := fun A a => Ok a.
#[global] Instance Result_bind : MBind Result :=
  fun A B f m => match m with Ok a => f a | Raise e => Raise e end.

Definition is_Ok {A} (r : Result A) : bool :=
  match r with Ok _ => true | Raise _ => false end.

(** ** The pyarrow and numpy operations the adapter calls *)

(** [Schema.equals]: the same fields in the same order. *)
Definition Schema_equals (s1 s2 : Schema) : bool := bool_decide (s1 = s2).

(** [Schema.field_by_name]: the field of that name, [None] unless exactly one
    field has it. *)
Definition field_by_name (s : Schema) (n : string) : option Field :=
  match filter (fun f => name f = n) s with
  | [f] => Some f
  | _ => None
  end.

(** [Schema.get_field_index]: the position of the field of that name, [-1]
    unless exactly one field has it. *)
Definition get_field_index (s : Schema) (n : string) : Z :=
  match filter (fun f => name f = n) s, list_find (fun f => name f = n) s with
  | [_], Some (i, _) => Z.of_nat i
  | _, _ => (-1)%Z
  end.

(** Indexing as pyarrow normalises it: a negative index counts from the
    end, anything outside raises [IndexError]. *)
Definition normalize_index (index : Z) (length : nat) : Result nat :=
  if (index <? 0)%Z then
    if (index + Z.of_nat length <? 0)%Z then Raise IndexOutOfBounds
    else Ok (Z.to_nat (index + Z.of_nat length))
  else if (Z.of_nat length <=? index)%Z then Raise IndexOutOfBounds
  else Ok (Z.to_nat index).

Definition getitem {A} (l : list A) (index : Z) : Result A :=
  i ← normalize_index index (length l);
  match l !! i with
  | Some x => Ok x
  | None => Raise IndexOutOfBounds
  end.

(** [arrow_schema[i]] and [record_batch.column(i)]. *)
Definition Schema_getitem (s : Schema) (i : Z) : Result Field := getitem s i.

Definition RecordBatch_column (rb : RecordBatch) (i : Z) : Result ListArray :=
  c ← getitem rb i; Ok (snd c).

(** [ListArray.flatten]: the row-lists one after the other; a null row
    contributes nothing. *)
Definition row_values (row : option (list Value)) : list Value := default [] row.

Definition flatten (a : ListArray) : Array :=
  mkArray (value_type a) (mjoin (row_values <$> rows a)).

(** [np.prod(shape, initial=1)]. *)
Definition np_prod (shape : list nat) : nat := foldr Nat.mul 1 shape.

(** [np.asarray] of a flat array: one dimension, the dtype of the Arrow
    type. *)
Definition np_asarray (a : Array) : ndarray :=
  mkndarray [length (arr_values a)] (to_pandas_dtype (arr_type a)) (arr_values a).

Definition nd_size (a : ndarray) : nat := length (nd_data a).

(** The dimensions of a shape when all of them are known. *)
Fixpoint known_dims (shape : list (option nat)) : option (list nat) :=
  match shape with
  | [] => Some []
  | None :: _ => None
  | Some d :: shape' => cons d <$> known_dims shape'
  end.

(** [ndarray.reshape(shape)]: same elements in the same order, new shape. *)
Definition reshape (a : ndarray) (shape : list (option nat)) : Result ndarray :=
  match known_dims shape with
  | Some dims =>
      if Nat.eqb (np_prod dims) (nd_size a)
      then Ok (mkndarray dims (nd_dtype a) (nd_data a))
      else Raise (CannotReshape (nd_size a) shape)
  | None => Raise (CannotReshape (nd_size a) shape)
  end.

(** [coo.to_numpy().reshape(n, 2)] of a flat int64 array: [n] rows of two. *)
Fixpoint pairs (flat : list nat) : list (nat * nat) :=
  match flat with
  | r :: p :: flat' => (r, p) :: pairs flat'
  | _ => []
  end.

Definition reshape_n_2 (flat : list nat) (n : nat) : Result (list (nat * nat)) :=
  if Nat.eqb (length flat) (n * 2) then Ok (pairs flat)
  else Raise (CannotReshape (length flat) [Some n; Some 2]).

(** ** [tfx_bsl.arrow.array_util] *)

(** Modelled from the spec: [array_util.FillNullLists], whose source is not
    part of the files at hand.  Every null row-list of the column is replaced
    with the filler buffer; the other rows are kept. *)
Definition FillNullLists (list_array : ListArray) (fill : Array) : ListArray :=
  mkListArray (value_type list_array)
    (map (fun row => Some (default (arr_values fill) row)) (rows list_array)).

(** Modelled from the spec: [array_util.CooFromListArray], whose source is
    not part of the files at hand.  For each row [r] in order (a null row
    counts as empty) and each position [p] of that row, the coordinate
    [r, p] is emitted into one flat int64 array; the dense shape is the batch
    size and the largest row length (0 for an empty batch). *)
Fixpoint coo_from (r : nat) (rws : list (option (list Value))) : list nat :=
  match rws with
  | [] => []
  | row :: rest =>
      flat_map (fun p => [r; p]) (seq 0 (length (row_values row)))
      ++ coo_from (S r) rest
  end.

Definition max_row_length (rws : list (option (list Value))) : nat :=
  foldr (fun row m => Nat.max (length (row_values row)) m) 0 rws.

Definition CooFromListArray (list_array : ListArray) : list nat * list nat :=
  (coo_from 0 (rows list_array),
   [length (rows list_array); max_row_length (rows list_array)]).

(** ** Shape and type inspection *)

(** The [while pa.types.is_list(arrow_type)] loop. *)
Fixpoint nest_depth_loop (arrow_type : ArrowType) (depth : nat) : nat * ArrowType :=
  match arrow_type with
  | list_ vt => nest_depth_loop vt (S depth)
  | _ => (depth, arrow_type)
  end.

(** The argument is [None] when [field_by_name] found no field; reading
    [.type] of it raises. *)
Definition _GetNestDepthAndValueType (arrow_field : option Field)
  : Result (nat * ArrowType) :=
  match arrow_field with
  | None => Raise NoneTypeHasNoAttributeType
  | Some f => Ok (nest_depth_loop (type f) 0)
  end.

Definition _IsSupportedArrowValueType (arrow_type : ArrowType) : bool :=
  is_integer arrow_type || is_floating arrow_type || is_binary arrow_type.

Definition _ArrowTypeToTfDtype (arrow_type : ArrowType) : DType :=
  as_dtype (to_pandas_dtype arrow_type).

(** ** Default values *)

(** [kind in (names)] and [kind == name]; [kind] is [None] when the oneof is
    not set. *)
Definition kind_in (kind : option string) (names : list string) : bool :=
  match kind with
  | Some k => existsb (String.eqb k) names
  | None => false
  end.

(** [getattr(default_value_proto, kind)] for the two integer kinds, and the
    plain field reads; a field of the oneof that is not set reads as its
    default. *)
Definition getattr_integer (d : DefaultValue) : Z :=
  match d with int_value z | uint_value z => z | _ => 0%Z end.

Definition get_float_value (d : DefaultValue) : QArith_base.Q :=
  match d with float_value f => f | _ => QArith_base.Qmake 0 1 end.

Definition get_bytes_value (d : DefaultValue) : string :=
  match d with bytes_value b => b | _ => "" end.

Definition _GetAllowedDefaultValue (value_type : ArrowType)
    (default_value_proto : DefaultValue) : Result Value :=
  let kind := DefaultValue_WhichOneof default_value_proto in
  if kind_in kind ["int_value"; "uint_value"] && is_integer value_type then
    let value := getattr_integer default_value_proto in
    let iinfo := to_pandas_dtype value_type in
    if (value <=? iinfo_max iinfo)%Z && (value >=? iinfo_min iinfo)%Z
    then Ok (IntV value)
    else Raise (IntegerDefaultValueOutOfRange value value_type)
  else if kind_in kind ["float_value"] && is_floating value_type then
    Ok (FloatV (get_float_value default_value_proto))
  else if kind_in kind ["bytes_value"] && is_binary value_type then
    Ok (BytesV (get_bytes_value default_value_proto))
  else Raise (IncompatibleDefaultValue kind value_type).

(** [unbatched_shape] is [self._shape[1:]], whose dimensions are all known. *)
Definition _GetDefaultFill (unbatched_shape : list (option nat))
    (value_type : ArrowType) (default_value_proto : DefaultValue) : Result Array :=
  let size := np_prod (omap id unbatched_shape) in
  v ← _GetAllowedDefaultValue value_type default_value_proto;
  Ok (mkArray value_type (replicate size v)).

(** ** Type handlers *)

(** The slots of [_BaseDenseTensorHandler]. *)
Record BaseDenseTensorHandler : Type := mkBaseDense {
  _column_index : Z;
  _dtype : DType;
  _shape : list (option nat);
  _unbatched_flat_len : nat
}.

(** An instance of one of the three handler classes, with its slots. *)
Inductive TypeHandler : Type :=
| DenseTensorHandler (base : BaseDenseTensorHandler)
| DefaultFillingDenseTensorHandler (base : BaseDenseTensorHandler)
                                   (_default_fill : Array)
| VarLenSparseTensorHandler (column_index : Z) (dtype : DType).

Definition BaseDenseTensorHandler_init (arrow_schema : Schema)
    (tensor_representation : TensorRepresentation) : Result BaseDenseTensorHandler :=
  let dense_rep := rep_dense_tensor tensor_representation in
  let column_index := get_field_index arrow_schema (column_name dense_rep) in
  f ← Schema_getitem arrow_schema column_index;
  dv ← _GetNestDepthAndValueType (Some f);
  let unbatched_shape := shape_dim (rep_dense_tensor tensor_representation) in
  Ok (mkBaseDense column_index (_ArrowTypeToTfDtype (snd dv))
        (None :: map Some unbatched_shape) (np_prod unbatched_shape)).

Definition BaseDenseTensorHandler_type_spec (self : BaseDenseTensorHandler) : TypeSpec :=
  TensorSpec (_shape self) (_dtype self).

(** [actual_shape = list(self._shape); actual_shape[0] = batch_size]. *)
Definition set_batch_dim (shape : list (option nat)) (batch_size : nat)
  : Result (list (option nat)) :=
  match shape with
  | [] => Raise IndexOutOfBounds
  | _ :: unbatched => Ok (Some batch_size :: unbatched)
  end.

Definition _ListArrayToTensor (self : BaseDenseTensorHandler)
    (list_array : ListArray) : Result Tensor :=
  let values := flatten list_array in
  let batch_size := length (rows list_array) in
  let expected_num_elements := batch_size * _unbatched_flat_len self in
  if negb (Nat.eqb (length (arr_values values)) expected_num_elements) then
    Raise (SizeMismatch list_array (BaseDenseTensorHandler_type_spec self)
             expected_num_elements (length (arr_values values)))
  else
    actual_shape ← set_batch_dim (_shape self) batch_size;
    values_np ← reshape (np_asarray values) actual_shape;
    Ok (DenseValue values_np).

Definition BaseCanHandle (arrow_schema : Schema)
    (tensor_representation : TensorRepresentation) : Result bool :=
  dv ← _GetNestDepthAndValueType
         (field_by_name arrow_schema
            (column_name (rep_dense_tensor tensor_representation)));
  Ok (Nat.eqb (fst dv) 1 && _IsSupportedArrowValueType (snd dv)).

(** *** [_DenseTensorHandler] *)

Definition DenseTensorHandler_init (arrow_schema : Schema)
    (tensor_representation : TensorRepresentation) : Result TypeHandler :=
  base ← BaseDenseTensorHandler_init arrow_schema tensor_representation;
  Ok (DenseTensorHandler base).

Definition DenseTensorHandler_GetTensor (self : BaseDenseTensorHandler)
    (record_batch : RecordBatch) : Result Tensor :=
  column ← RecordBatch_column record_batch (_column_index self);
  _ListArrayToTensor self column.

Definition DenseTensorHandler_CanHandle (arrow_schema : Schema)
    (tensor_representation : TensorRepresentation) : Result bool :=
  b ← BaseCanHandle arrow_schema tensor_representation;
  Ok (b && negb (HasField_default_value (rep_dense_tensor tensor_representation))).

(** *** [_DefaultFillingDenseTensorHandler] *)

(** Reading [dense_tensor.default_value]: the message if present, an empty
    one otherwise. *)
Definition get_default_value (d : DenseTensor) : DefaultValue :=
  default kind_not_set (default_value d).

Definition DefaultFillingDenseTensorHandler_init (arrow_schema : Schema)
    (tensor_representation : TensorRepresentation) : Result TypeHandler :=
  base ← BaseDenseTensorHandler_init arrow_schema tensor_representation;
  f ← Schema_getitem arrow_schema (_column_index base);
  dv ← _GetNestDepthAndValueType (Some f);
  default_fill ← _GetDefaultFill (tail (_shape base)) (snd dv)
                    (get_default_value (rep_dense_tensor tensor_representation));
  Ok (DefaultFillingDenseTensorHandler base default_fill).

Definition DefaultFillingDenseTensorHandler_GetTensor
    (self : BaseDenseTensorHandler) (_default_fill : Array)
    (record_batch : RecordBatch) : Result Tensor :=
  column ← RecordBatch_column record_batch (_column_index self);
  let column := FillNullLists column _default_fill in
  _ListArrayToTensor self column.

Definition DefaultFillingDenseTensorHandler_CanHandle (arrow_schema : Schema)
    (tensor_representation : TensorRepresentation) : Result bool :=
  b ← BaseCanHandle arrow_schema tensor_representation;
  Ok (b && HasField_default_value (rep_dense_tensor tensor_representation)).

(** *** [_VarLenSparseTensorHandler] *)

Definition VarLenSparseTensorHandler_init (arrow_schema : Schema)
    (tensor_representation : TensorRepresentation) : Result TypeHandler :=
  let column_name := rep_varlen_column_name tensor_representation in
  let column_index := get_field_index arrow_schema column_name in
  f ← Schema_getitem arrow_schema column_index;
  dv ← _GetNestDepthAndValueType (Some f);
  Ok (VarLenSparseTensorHandler column_index (_ArrowTypeToTfDtype (snd dv))).

Definition VarLenSparseTensorHandler_GetTensor (column_index : Z)
    (record_batch : RecordBatch) : Result Tensor :=
  array ← RecordBatch_column record_batch column_index;
  let coo := CooFromListArray array in
  let dense_shape_np := snd coo in
  let values_np := np_asarray (flatten array) in
  coo_np ← reshape_n_2 (fst coo) (nd_size values_np);
  Ok (SparseTensorValue coo_np values_np dense_shape_np).

Definition VarLenSparseTensorHandler_CanHandle (arrow_schema : Schema)
    (tensor_representation : TensorRepresentation) : Result bool :=
  dv ← _GetNestDepthAndValueType
         (field_by_name arrow_schema
            (rep_varlen_column_name tensor_representation));
  Ok (Nat.eqb (fst dv) 1 && _IsSupportedArrowValueType (snd dv)).

(** *** The methods of an instance *)

Definition type_spec (handler : TypeHandler) : TypeSpec :=
  match handler with
  | DenseTensorHandler base
  | DefaultFillingDenseTensorHandler base _ => BaseDenseTensorHandler_type_spec base
  | VarLenSparseTensorHandler _ dtype => SparseTensorSpec [None; None] dtype
  end.

Definition GetTensor (handler : TypeHandler) (record_batch : RecordBatch)
  : Result Tensor :=
  match handler with
  | DenseTensorHandler base => DenseTensorHandler_GetTensor base record_batch
  | DefaultFillingDenseTensorHandler base fill =>
      DefaultFillingDenseTensorHandler_GetTensor base fill record_batch
  | VarLenSparseTensorHandler column_index _ =>
      VarLenSparseTensorHandler_GetTensor column_index record_batch
  end.

(** ** The handler registry *)

(** A handler class: its static [CanHandle] and its constructor. *)
Record HandlerClass : Type := mkHandlerClass {
  CanHandle : Schema -> TensorRepresentation -> Result bool;
  new : Schema -> TensorRepresentation -> Result TypeHandler
}.

Definition _DenseTensorHandler : HandlerClass :=
  mkHandlerClass DenseTensorHandler_CanHandle DenseTensorHandler_init.

Definition _DefaultFillingDenseTensorHandler : HandlerClass :=
  mkHandlerClass DefaultFillingDenseTensorHandler_CanHandle
                 DefaultFillingDenseTensorHandler_init.

Definition _VarLenSparseTensorHandler : HandlerClass :=
  mkHandlerClass VarLenSparseTensorHandler_CanHandle
                 VarLenSparseTensorHandler_init.

Definition _TYPE_HANDLER_MAP : gmap string (list HandlerClass) :=
  <["dense_tensor" := [_DenseTensorHandler; _DefaultFillingDenseTensorHandler]]>
    (<["varlen_sparse_tensor" := [_VarLenSparseTensorHandler]]> ∅).

(** [dict.get(key)], the key possibly [None]. *)
Definition dict_get {A} (d : gmap string A) (key : option string) : option A :=
  k ← key; d !! k.

(** The inner loop of [_BuildTypeHandlers]: the instance of the first class
    whose [CanHandle] is true, [None] when the loop ends without one. *)
Fixpoint find_handler (potential_handlers : list HandlerClass)
    (arrow_schema : Schema) (rep : TensorRepresentation)
  : Result (option TypeHandler) :=
  match potential_handlers with
  | [] => Ok None
  | h :: rest =>
      b ← CanHandle h arrow_schema rep;
      if b : bool then
        handler ← new h arrow_schema rep;
        Ok (Some handler)
      else find_handler rest arrow_schema rep
  end.

(** The body of the outer loop, for one item of the dict. *)
Definition build_handler (handler_map : gmap string (list HandlerClass)) (arrow_schema : Schema)
    (tensor_name : string) (rep : TensorRepresentation) : Result TypeHandler :=
  match dict_get handler_map (WhichOneof rep) with
  | None | Some [] => Raise (UnableToHandleTensor tensor_name rep)
  | Some potential_handlers =>
      found ← find_handler potential_handlers arrow_schema rep;
      match found with
      | Some handler => Ok handler
      | None => Raise (UnableToHandleTensorAgainstSchema tensor_name rep arrow_schema)
      end
  end.

Fixpoint build_handlers_loop (handler_map : gmap string (list HandlerClass))
    (items : list (string * TensorRepresentation)) (arrow_schema : Schema)
    (result : list (string * TypeHandler)) : Result (list (string * TypeHandler)) :=
  match items with
  | [] => Ok result
  | (tensor_name, rep) :: items' =>
      handler ← build_handler handler_map arrow_schema tensor_name rep;
      build_handlers_loop handler_map items' arrow_schema
        (result ++ [(tensor_name, handler)])
  end.

Definition _BuildTypeHandlers
    (tensor_representations : list (string * TensorRepresentation))
    (arrow_schema : Schema) : Result (list (string * TypeHandler)) :=
  build_handlers_loop _TYPE_HANDLER_MAP tensor_representations arrow_schema [].

(** ** The adapter *)

Record TensorAdapterConfig : Type := mkTensorAdapterConfig {
  arrow_schema : Schema;
  tensor_representations : list (string * TensorRepresentation)
}.

Record TensorAdapter : Type := mkTensorAdapter {
  _arrow_schema : Schema;
  _type_handlers : list (string * TypeHandler);
  _type_specs : gmap string TypeSpec
}.

(** The dict comprehension of [__init__]: a later item of the same name
    overwrites an earlier one. *)
Definition type_specs_of (handlers : list (string * TypeHandler))
  : gmap string TypeSpec :=
  foldl (fun m nh => <[fst nh := type_spec (snd nh)]> m) ∅ handlers.

Definition TensorAdapter_init (config : TensorAdapterConfig) : Result TensorAdapter :=
  handlers ← _BuildTypeHandlers (tensor_representations config) (arrow_schema config);
  Ok (mkTensorAdapter (arrow_schema config) handlers (type_specs_of handlers)).

Definition TypeSpecs (self : TensorAdapter) : gmap string TypeSpec :=
  _type_specs self.

(** The loop of [ToBatchTensors].  Besides the outcome it returns [calls],
    the names of the tensors whose handler was asked to convert, in the order
    of the calls. *)
Fixpoint to_batch_tensors_loop (handlers : list (string * TypeHandler))
    (record_batch : RecordBatch) (result : gmap string Tensor)
    (calls : list string) : list string * Result (gmap string Tensor) :=
  match handlers with
  | [] => (calls, Ok result)
  | (tensor_name, handler) :: handlers' =>
      match GetTensor handler record_batch with
      | Ok t =>
          to_batch_tensors_loop handlers' record_batch
            (<[tensor_name := t]> result) (calls ++ [tensor_name])
      | Raise e =>
          (calls ++ [tensor_name],
           Raise (ErrorRaisedWhenHandlingTensor tensor_name e))
      end
  end.

Definition ToBatchTensors_traced (self : TensorAdapter) (record_batch : RecordBatch)
  : list string * Result (gmap string Tensor) :=
  if negb (Schema_equals (RecordBatch_schema record_batch) (_arrow_schema self))
  then ([], Raise ExpectedSameSchema)
  else to_batch_tensors_loop (_type_handlers self) record_batch ∅ [].

Definition ToBatchTensors (self : TensorAdapter) (record_batch : RecordBatch)
  : Result (gmap string Tensor) :=
  snd (ToBatchTensors_traced self record_batch).


(** ** Data of the test suite *)

Module TestData.

Definition ints (zs : list Z) : list Value := IntV <$> zs.

(** [testOneTensorFromOneColumn], dense: [[1,2,3,4],[5,6,7,8]], one
    dimension of size 4. *)
Definition dense_column : ListArray :=
  mkListArray int64 [Some (ints [1; 2; 3; 4]); Some (ints [5; 6; 7; 8])]%Z.
Definition dense_batch : RecordBatch := [("input", dense_column)].
Definition dense_rep : DenseTensor := mkDenseTensor "input" [4] None.
Definition dense_handler : TypeHandler :=
  DenseTensorHandler (mkBaseDense 0 tf_int64 [None; Some 4] 4).

(** The same representation over a batch with a null row. *)
Definition dense_column_with_null : ListArray :=
  mkListArray int64 [Some (ints [1; 2; 3; 4]); None]%Z.
Definition dense_batch_with_null : RecordBatch :=
  [("input", dense_column_with_null)].

Definition filled_rep : DenseTensor :=
  mkDenseTensor "input" [2; 2] (Some (int_value 2)).
Definition filled_handler : TypeHandler :=
  DefaultFillingDenseTensorHandler
    (mkBaseDense 0 tf_int32 [None; Some 2; Some 2] 4)
    (mkArray int32 (ints [2; 2; 2; 2]%Z)).

(** Sparse: [[1,2], None, [3], [], [5]]. *)
Definition sparse_column : ListArray :=
  mkListArray int64
    [Some (ints [1; 2]); None; Some (ints [3]); Some []; Some (ints [5])]%Z.
Definition sparse_batch : RecordBatch := [("input", sparse_column)].
Definition sparse_rep : TensorRepresentation := varlen_sparse_tensor "input".

(** [testMultipleColumns], two of its columns and two of its outputs. *)
Definition two_columns : RecordBatch :=
  [ ("int64_ragged",
     mkListArray int64 [Some (ints [1]); Some []; Some (ints [2; 3]); None]%Z);
    ("bytes_ragged",
     mkListArray binary
       [None; Some [BytesV "a"; BytesV "b"]; Some [BytesV "c"; BytesV "d"];
        None]) ].
Definition two_outputs : list (string * TensorRepresentation) :=
  [ ("int64_varlen_sparse", varlen_sparse_tensor "int64_ragged");
    ("bytes_default_filled_dense",
     dense_tensor (mkDenseTensor "bytes_ragged" [2] (Some (bytes_value "kk")))) ].
Definition two_handlers : list (string * TypeHandler) :=
  [ ("int64_varlen_sparse", VarLenSparseTensorHandler 0 tf_int64);
    ("bytes_default_filled_dense",
     DefaultFillingDenseTensorHandler
       (mkBaseDense 1 tf_string [None; Some 2] 2)
       (mkArray binary [BytesV "kk"; BytesV "kk"])) ].
Definition two_adapter : TensorAdapter :=
  mkTensorAdapter (RecordBatch_schema two_columns) two_handlers
    (type_specs_of two_handlers).
Definition two_tensors : gmap string Tensor :=
  <["bytes_default_filled_dense" :=
      DenseValue
        (mkndarray [4; 2] np_object
           [BytesV "kk"; BytesV "kk"; BytesV "a"; BytesV "b";
            BytesV "c"; BytesV "d"; BytesV "kk"; BytesV "kk"])]>
    (<["int64_varlen_sparse" :=
         SparseTensorValue [(0, 0); (2, 0); (2, 1)]
           (mkndarray [3] np_int64 (ints [1; 2; 3]%Z)) [4; 2]]> ∅).

(** An adapter of three outputs over the batch with a null row: the dense
    output in the middle fails its size check. *)
Definition failing_handlers : list (string * TypeHandler) :=
  [ ("early", VarLenSparseTensorHandler 0 tf_int64);
    ("dense", dense_handler);
    ("late", VarLenSparseTensorHandler 0 tf_int64) ].
Definition failing_adapter : TensorAdapter :=
  mkTensorAdapter (RecordBatch_schema dense_batch_with_null) failing_handlers
    (type_specs_of failing_handlers).

(** A batch without rows. *)
Definition empty_column : ListArray := mkListArray int32 [].
Definition empty_batch : RecordBatch := [("input", empty_column)].

End TestData.


(** The defaults the specification allows: an integer default for an integer
    column and within the range of its width, a floating default for a
    floating column, a byte-string default for a byte-string column. *)
Definition default_value_allowed (vt : ArrowType) (dv : DefaultValue) (v : Value)
  : Prop :=
  (exists z, (dv = int_value z \/ dv = uint_value z)
             /\ is_integer vt = true
             /\ (iinfo_min (to_pandas_dtype vt) <= z <= iinfo_max (to_pandas_dtype vt))%Z
             /\ v = IntV z)
  \/ (exists f, dv = float_value f /\ is_floating vt = true /\ v = FloatV f)
  \/ (exists b, dv = bytes_value b /\ is_binary vt = true /\ v = BytesV b).

(** The two errors of the validation: an integer default outside the range
    of an integer column, and every other mismatch, the unset kind
    included. *)
Definition default_value_rejected (vt : ArrowType) (dv : DefaultValue)
    (e : Exception) : Prop :=
  (exists z, (dv = int_value z \/ dv = uint_value z)
             /\ is_integer vt = true
             /\ ~ (iinfo_min (to_pandas_dtype vt) <= z <= iinfo_max (to_pandas_dtype vt))%Z
             /\ e = IntegerDefaultValueOutOfRange z vt)
  \/ (e = IncompatibleDefaultValue (DefaultValue_WhichOneof dv) vt
      /\ match dv with
         | kind_not_set => True
         | int_value _ | uint_value _ => is_integer vt = false
         | float_value _ => is_floating vt = false
         | bytes_value _ => is_binary vt = false
         end).


(** Construction fails for every adapter that declares the output
    [tensor_name] with representation [rep] over the schema [s], and with
    the error [e] when the outputs declared before it resolve. *)
Definition construction_fails_with (s : Schema) (tensor_name : string)
    (rep : TensorRepresentation) (e : Exception) : Prop :=
  forall before after,
    is_Ok (TensorAdapter_init
             (mkTensorAdapterConfig s (before ++ (tensor_name, rep) :: after)))
    = false
    /\ (is_Ok (_BuildTypeHandlers before s) = true ->
        TensorAdapter_init
          (mkTensorAdapterConfig s (before ++ (tensor_name, rep) :: after))
        = Raise e).


(** The coordinates of the specification: the pairs [(r, p)] for every row
    [r] and every position [p] of that row, by row and then by position. *)
Definition coordinates_of (rws : list (list Value)) : list (nat * nat) :=
  mjoin (imap (fun r row => (fun p => (r, p)) <$> seq 0 (length row)) rws).





(** Peels the binds of a hypothesis [H : _ = Ok _]: every bound computation
    returned a value, which gets a name and an equation. *)
Ltac ok_inv H :=
  repeat match type of H with
  | ?m ≫= _ = Ok _ =>
      let a := fresh "a" in let Ha := fresh "Ha" in
      destruct m as [a|?] eqn:Ha; simpl in H; [|discriminate H]
  | Ok _ = Ok _ => injection H as H
  end.

(** ** What construction builds *)

(** The column index a handler holds. *)
Definition handler_column_index (h : TypeHandler) : Z :=
  match h with
  | DenseTensorHandler base | DefaultFillingDenseTensorHandler base _ =>
      _column_index base
  | VarLenSparseTensorHandler column_index _ => column_index
  end.

Definition is_dense_handler (h : TypeHandler) : bool :=
  match h with
  | DenseTensorHandler _ | DefaultFillingDenseTensorHandler _ _ => true
  | VarLenSparseTensorHandler _ _ => false
  end.

(** The column [column] of the schema can feed a handler: exactly one field
    has that name, it is a list of [vt] and [vt] is a supported element
    type. *)
Definition column_usable (s : Schema) (column : string) (vt : ArrowType) : Prop :=
  exists f, field_by_name s column = Some f
            /\ type f = list_ vt
            /\ _IsSupportedArrowValueType vt = true.

(** The handler the registry builds for a representation, slot by slot. *)
Definition handler_built_for (s : Schema) (rep : TensorRepresentation)
    (h : TypeHandler) : Prop :=
  match rep with
  | dense_tensor d =>
      exists vt,
        column_usable s (column_name d) vt
        /\ match default_value d with
           | None =>
               h = DenseTensorHandler
                     (mkBaseDense (get_field_index s (column_name d))
                        (_ArrowTypeToTfDtype vt)
                        (None :: (Some <$> shape_dim d)) (np_prod (shape_dim d)))
           | Some dv =>
               exists v,
                 _GetAllowedDefaultValue vt dv = Ok v
                 /\ h = DefaultFillingDenseTensorHandler
                          (mkBaseDense (get_field_index s (column_name d))
                             (_ArrowTypeToTfDtype vt)
                             (None :: (Some <$> shape_dim d))
                             (np_prod (shape_dim d)))
                          (mkArray vt (replicate (np_prod (shape_dim d)) v))
           end
  | varlen_sparse_tensor column =>
      exists vt,
        column_usable s column vt
        /\ h = VarLenSparseTensorHandler (get_field_index s column)
                 (_ArrowTypeToTfDtype vt)
  | _ => False
  end.



(** The column a representation names. *)
Definition representation_column (rep : TensorRepresentation) : string :=
  match rep with
  | dense_tensor d => column_name d
  | varlen_sparse_tensor column => column
  | _ => ""
  end.

(** The signature of the output a representation declares over a column of
    element type [vt]. *)
Definition signature_of (rep : TensorRepresentation) (vt : ArrowType) : TypeSpec :=
  match rep with
  | dense_tensor d =>
      TensorSpec (None :: (Some <$> shape_dim d)) (_ArrowTypeToTfDtype vt)
  | _ => SparseTensorSpec [None; None] (_ArrowTypeToTfDtype vt)
  end.


(** * Properties *)

(** ** The [Result] monad *)

Lemma bind_Ok {A B} (m : Result A) (f : A -> Result B) (b : B) :
  m ≫= f = Ok b <-> exists a, m = Ok a /\ f a = Ok b.
Proof.
  destruct m as [a|e]; simpl; split.
  - intros H. exists a. auto.
  - intros (a' & Ha & Hf). congruence.
  - discriminate.
  - intros (a' & Ha & _). discriminate.
Qed.

Lemma bind_Raise {A B} (m : Result A) (f : A -> Result B) (e : Exception) :
  m = Raise e -> m ≫= f = Raise e.
Proof. intros ->. reflexivity. Qed.

Lemma is_Ok_true {A} (r : Result A) : is_Ok r = true <-> exists a, r = Ok a.
Proof.
  destruct r; simpl; split; eauto; try discriminate.
  intros (a & Ha). discriminate.
Qed.

(** ** Indexing *)

Lemma normalize_index_lt index n i :
  normalize_index index n = Ok i -> i < n.
Proof.
  unfold normalize_index.
  repeat case_match; intros [= <-]; lia.
Qed.

Lemma normalize_index_of_nat (i n : nat) :
  i < n -> normalize_index (Z.of_nat i) n = Ok i.
Proof.
  intros Hi. unfold normalize_index.
  destruct (Z.ltb_spec (Z.of_nat i) 0); [lia|].
  destruct (Z.leb_spec (Z.of_nat n) (Z.of_nat i)); [lia|].
  by rewrite Nat2Z.id.
Qed.

Lemma getitem_Ok {A} (l : list A) index x :
  getitem l index = Ok x <->
  exists i, normalize_index index (length l) = Ok i /\ l !! i = Some x.
Proof.
  unfold getitem. split.
  - intros H. apply bind_Ok in H as (i & Hi & H). exists i. split; [done|].
    destruct (l !! i); congruence.
  - intros (i & Hi & Hx). rewrite Hi. simpl. by rewrite Hx.
Qed.

Lemma getitem_of_nat {A} (l : list A) (i : nat) x :
  l !! i = Some x -> getitem l (Z.of_nat i) = Ok x.
Proof.
  intros Hx. apply getitem_Ok. exists i. split; [|done].
  apply normalize_index_of_nat. by eapply lookup_lt_Some.
Qed.

Lemma getitem_length_eq {A B} (l : list A) (k : list B) index i :
  length l = length k ->
  normalize_index index (length l) = Ok i -> normalize_index index (length k) = Ok i.
Proof. by intros ->. Qed.


Lemma field_of_column (rb : RecordBatch) index column :
  RecordBatch_column rb index = Ok column ->
  exists f, Schema_getitem (RecordBatch_schema rb) index = Ok f
            /\ type f = list_ (value_type column).
Proof.
  unfold Schema_getitem, RecordBatch_column, RecordBatch_schema.
  intros H. apply bind_Ok in H as (c & Hc & [= <-]).
  apply getitem_Ok in Hc as (i & Hi & Hc).
  exists (field (fst c) (ListArray_type (snd c))). split; [|done].
  apply getitem_Ok. exists i. rewrite length_map, list_lookup_fmap, Hc. done.
Qed.

(** ** Dense conversion *)

Lemma known_dims_Some (dims : list nat) : known_dims (Some <$> dims) = Some dims.
Proof. induction dims as [|d dims IH]; csimpl; [done|]. by rewrite IH. Qed.

Lemma omap_id_Some (dims : list nat) : omap id (Some <$> dims) = dims.
Proof. induction dims as [|d dims IH]; csimpl; [done|]. by rewrite IH. Qed.

(** What the constructor of the base class leaves in the slots. *)
Lemma BaseDenseTensorHandler_init_Ok s rep base :
  BaseDenseTensorHandler_init s rep = Ok base ->
  exists f,
    Schema_getitem s (get_field_index s (column_name (rep_dense_tensor rep))) = Ok f
    /\ base = mkBaseDense
               (get_field_index s (column_name (rep_dense_tensor rep)))
               (_ArrowTypeToTfDtype (snd (nest_depth_loop (type f) 0)))
               (None :: (Some <$> shape_dim (rep_dense_tensor rep)))
               (np_prod (shape_dim (rep_dense_tensor rep))).
Proof.
  unfold BaseDenseTensorHandler_init. intros H. ok_inv H.
  exists a. by subst.
Qed.

(** The two outcomes of [_ListArrayToTensor] for a handler whose slots come
    from a shape [dims]. *)
Section list_array_to_tensor.
Variables (index : Z) (dtype : DType) (dims : list nat).

Lemma ListArrayToTensor_mismatch list_array :
  length (arr_values (flatten list_array))
    <> length (rows list_array) * np_prod dims ->
  _ListArrayToTensor
    (mkBaseDense index dtype (None :: (Some <$> dims)) (np_prod dims)) list_array
  = Raise (SizeMismatch list_array (TensorSpec (None :: (Some <$> dims)) dtype)
             (length (rows list_array) * np_prod dims)
             (length (arr_values (flatten list_array)))).
Proof.
  intros Hne. unfold _ListArrayToTensor. simpl.
  destruct (Nat.eqb_spec (length (mjoin (row_values <$> rows list_array)))
              (length (rows list_array) * np_prod dims)) as [Heq|_]; [|done].
  by destruct Hne.
Qed.

Lemma ListArrayToTensor_match list_array :
  length (arr_values (flatten list_array))
    = length (rows list_array) * np_prod dims ->
  _ListArrayToTensor
    (mkBaseDense index dtype (None :: (Some <$> dims)) (np_prod dims)) list_array
  = Ok (DenseValue (mkndarray (length (rows list_array) :: dims)
                      (to_pandas_dtype (value_type list_array))
                      (arr_values (flatten list_array)))).
Proof.
  intros Heq. unfold _ListArrayToTensor. simpl in *.
  rewrite Heq, Nat.eqb_refl. simpl.
  unfold reshape. simpl. rewrite known_dims_Some. simpl.
  unfold nd_size. simpl. rewrite Heq, Nat.eqb_refl. done.
Qed.
End list_array_to_tensor.



Lemma DenseTensorHandler_init_Ok s rep h :
  new _DenseTensorHandler s rep = Ok h ->
  exists f,
    Schema_getitem s (get_field_index s (column_name (rep_dense_tensor rep))) = Ok f
    /\ h = DenseTensorHandler
             (mkBaseDense
                (get_field_index s (column_name (rep_dense_tensor rep)))
                (_ArrowTypeToTfDtype (snd (nest_depth_loop (type f) 0)))
                (None :: (Some <$> shape_dim (rep_dense_tensor rep)))
                (np_prod (shape_dim (rep_dense_tensor rep)))).
Proof.
  simpl. unfold DenseTensorHandler_init. intros H. ok_inv H.
  apply BaseDenseTensorHandler_init_Ok in Ha as (f & Hf & ->).
  exists f. by subst.
Qed.

Lemma DefaultFillingDenseTensorHandler_init_Ok s rep h :
  new _DefaultFillingDenseTensorHandler s rep = Ok h ->
  exists f v,
    Schema_getitem s (get_field_index s (column_name (rep_dense_tensor rep))) = Ok f
    /\ _GetAllowedDefaultValue (snd (nest_depth_loop (type f) 0))
         (get_default_value (rep_dense_tensor rep)) = Ok v
    /\ h = DefaultFillingDenseTensorHandler
             (mkBaseDense
                (get_field_index s (column_name (rep_dense_tensor rep)))
                (_ArrowTypeToTfDtype (snd (nest_depth_loop (type f) 0)))
                (None :: (Some <$> shape_dim (rep_dense_tensor rep)))
                (np_prod (shape_dim (rep_dense_tensor rep))))
             (mkArray (snd (nest_depth_loop (type f) 0))
                (replicate (np_prod (shape_dim (rep_dense_tensor rep))) v)).
Proof.
  simpl. unfold DefaultFillingDenseTensorHandler_init. intros H.
  apply bind_Ok in H as (base & Hbase & H).
  apply BaseDenseTensorHandler_init_Ok in Hbase as (f & Hf & ->).
  simpl in H. rewrite Hf in H. simpl in H.
  unfold _GetDefaultFill in H. rewrite omap_id_Some in H.
  apply bind_Ok in H as (fill & Hfill & [= <-]).
  apply bind_Ok in Hfill as (v & Hv & [= <-]).
  exists f, v. done.
Qed.

(** C2.  Dense round trip: for a column of row-lists that are all present and
    all of length [k], the plain dense handler built for [dims = [k]] returns
    a dense value of shape [[batch_size; k]] whose row-major values are the
    row-lists one after the other in row order; the element at [[r, p]] is
    the element at position [p] of row [r]. *)
Theorem dense_round_trip (s : Schema) (d : DenseTensor) (k : nat)
    (h : TypeHandler) (rb : RecordBatch) (vt : ArrowType)
    (ls : list (list Value)) :
  shape_dim d = [k] ->
  new _DenseTensorHandler s (dense_tensor d) = Ok h ->
  RecordBatch_column rb (get_field_index s (column_name d))
    = Ok (mkListArray vt (Some <$> ls)) ->
  Forall (fun l => length l = k) ls ->
  GetTensor h rb
    = Ok (DenseValue (mkndarray [length ls; k] (to_pandas_dtype vt) (mjoin ls)))
  /\ (forall r p l v,
        ls !! r = Some l -> l !! p = Some v -> mjoin ls !! (r * k + p) = Some v).
Proof.
  intros Hdims Hnew Hcol Hlen.
  apply DenseTensorHandler_init_Ok in Hnew as (f & _ & ->). simpl in *.
  assert (Hrows : row_values <$> (Some <$> ls) = ls).
  { rewrite <- list_fmap_compose. apply list_fmap_id. }
  split.
  - unfold DenseTensorHandler_GetTensor. simpl. rewrite Hcol. simpl.
    rewrite ListArrayToTensor_match; simpl; rewrite Hrows, Hdims, ?length_fmap.
    + done.
    + rewrite length_join, (sum_list_fmap_same k) by done. simpl. lia.
  - intros r p l v Hl Hv.
    assert (p < k).
    { rewrite <- (proj1 (Forall_lookup _ _) Hlen r l Hl). by eapply lookup_lt_Some. }
    apply join_lookup_Some_same_length'; eauto.
Qed.

Lemma dense_round_trip_witness :
  GetTensor TestData.dense_handler TestData.dense_batch
    = Ok (DenseValue (mkndarray [2; 4] np_int64
            (TestData.ints [1; 2; 3; 4; 5; 6; 7; 8]%Z)))
  /\ (forall r p l v,
        [TestData.ints [1; 2; 3; 4]; TestData.ints [5; 6; 7; 8]]%Z !! r = Some l ->
        l !! p = Some v ->
        TestData.ints [1; 2; 3; 4; 5; 6; 7; 8]%Z !! (r * 4 + p) = Some v).
Proof.
  apply (dense_round_trip (RecordBatch_schema TestData.dense_batch)
           TestData.dense_rep 4 TestData.dense_handler TestData.dense_batch int64
           [TestData.ints [1; 2; 3; 4]; TestData.ints [5; 6; 7; 8]]%Z).
  - reflexivity.
  - reflexivity.
  - reflexivity.
  - repeat constructor.
Defined.



(** C10.  On a column without rows both dense handlers succeed and return a
    dense value of shape [[0] + dims] without elements. *)
Theorem dense_empty_batch (s : Schema) (d : DenseTensor) (h : TypeHandler)
    (rb : RecordBatch) (column : ListArray) :
  new _DenseTensorHandler s (dense_tensor d) = Ok h
  \/ new _DefaultFillingDenseTensorHandler s (dense_tensor d) = Ok h ->
  RecordBatch_column rb (get_field_index s (column_name d)) = Ok column ->
  rows column = [] ->
  GetTensor h rb
    = Ok (DenseValue (mkndarray (0 :: shape_dim d)
                        (to_pandas_dtype (value_type column)) [])).
Proof.
  intros [Hnew|Hnew] Hcol Hrows.
  - apply DenseTensorHandler_init_Ok in Hnew as (f & _ & ->). simpl in *.
    unfold DenseTensorHandler_GetTensor. simpl. rewrite Hcol. simpl.
    rewrite ListArrayToTensor_match; simpl; rewrite Hrows; done.
  - apply DefaultFillingDenseTensorHandler_init_Ok in Hnew as (f & v & _ & _ & ->).
    simpl in *.
    unfold DefaultFillingDenseTensorHandler_GetTensor. simpl. rewrite Hcol. simpl.
    rewrite ListArrayToTensor_match; simpl; rewrite Hrows; done.
Qed.

Lemma dense_empty_batch_witness :
  GetTensor TestData.filled_handler TestData.empty_batch
    = Ok (DenseValue (mkndarray [0; 2; 2] np_int32 [])).
Proof.
  apply (dense_empty_batch
           (RecordBatch_schema TestData.empty_batch) TestData.filled_rep
           TestData.filled_handler TestData.empty_batch TestData.empty_column).
  - right. reflexivity.
  - reflexivity.
  - reflexivity.
Defined.



(** ** Default values *)

Lemma GetAllowedDefaultValue_Ok vt dv v :
  _GetAllowedDefaultValue vt dv = Ok v <-> default_value_allowed vt dv v.
Proof.
  unfold _GetAllowedDefaultValue, default_value_allowed.
  destruct dv as [|f|z|b|z]; simpl.
  - split; [discriminate|]. intros [(z & [?|?] & _)|[(f & ? & _)|(b & ? & _)]]; discriminate.
  - destruct (is_floating vt); simpl.
    + split; [intros [= <-]; right; left; eauto|].
      intros [(z & [?|?] & _)|[(f' & [= <-] & _ & ->)|(b & ? & _)]]; done.
    + split; [discriminate|].
      intros [(z & [?|?] & _)|[(f' & _ & ? & _)|(b & ? & _)]]; discriminate.
  - destruct (is_integer vt); simpl.
    + rewrite Z.geb_leb.
      destruct (Z.leb_spec z (iinfo_max (to_pandas_dtype vt)));
        destruct (Z.leb_spec (iinfo_min (to_pandas_dtype vt)) z); simpl;
        (split; [try discriminate; intros [= <-]; left; exists z; split_and!; eauto; lia|]);
        intros [(z' & [[= <-]|?] & _ & ? & ->)|[(f & ? & _)|(b & ? & _)]];
        try discriminate; try done; lia.
    + split; [discriminate|].
      intros [(z' & _ & ? & _)|[(f & ? & _)|(b & ? & _)]]; discriminate.
  - destruct (is_binary vt); simpl.
    + split; [intros [= <-]; right; right; eauto|].
      intros [(z & [?|?] & _)|[(f & ? & _)|(b' & [= <-] & _ & ->)]]; done.
    + split; [discriminate|].
      intros [(z & [?|?] & _)|[(f & ? & _)|(b' & _ & ? & _)]]; discriminate.
  - destruct (is_integer vt); simpl.
    + rewrite Z.geb_leb.
      destruct (Z.leb_spec z (iinfo_max (to_pandas_dtype vt)));
        destruct (Z.leb_spec (iinfo_min (to_pandas_dtype vt)) z); simpl;
        (split; [try discriminate; intros [= <-]; left; exists z; split_and!; eauto; lia|]);
        intros [(z' & [?|[= <-]] & _ & ? & ->)|[(f & ? & _)|(b & ? & _)]];
        try discriminate; try done; lia.
    + split; [discriminate|].
      intros [(z' & _ & ? & _)|[(f & ? & _)|(b & ? & _)]]; discriminate.
Qed.

Lemma GetAllowedDefaultValue_Raise vt dv e :
  _GetAllowedDefaultValue vt dv = Raise e <-> default_value_rejected vt dv e.
Proof.
  unfold _GetAllowedDefaultValue, default_value_rejected.
  destruct dv as [|f|z|b|z]; simpl.
  - split; [intros [= <-]; right; done|].
    intros [(z & [?|?] & _)|[-> _]]; done.
  - destruct (is_floating vt); simpl.
    + split; [discriminate|]. intros [(z & [?|?] & _)|[_ ?]]; done.
    + split; [intros [= <-]; right; done|]. intros [(z & [?|?] & _)|[-> _]]; done.
  - destruct (is_integer vt); simpl.
    + rewrite Z.geb_leb.
      destruct (Z.leb_spec z (iinfo_max (to_pandas_dtype vt)));
        destruct (Z.leb_spec (iinfo_min (to_pandas_dtype vt)) z); simpl;
        (split; [try discriminate; intros [= <-]; left; exists z; split_and!; eauto; lia|]);
        intros [(z' & [[= <-]|?] & _ & ? & ->)|[_ ?]];
        try discriminate; try done; lia.
    + split; [intros [= <-]; right; done|].
      intros [(z' & _ & ? & _)|[-> _]]; done.
  - destruct (is_binary vt); simpl.
    + split; [discriminate|]. intros [(z & [?|?] & _)|[_ ?]]; done.
    + split; [intros [= <-]; right; done|]. intros [(z & [?|?] & _)|[-> _]]; done.
  - destruct (is_integer vt); simpl.
    + rewrite Z.geb_leb.
      destruct (Z.leb_spec z (iinfo_max (to_pandas_dtype vt)));
        destruct (Z.leb_spec (iinfo_min (to_pandas_dtype vt)) z); simpl;
        (split; [try discriminate; intros [= <-]; left; exists z; split_and!; eauto; lia|]);
        intros [(z' & [?|[= <-]] & _ & ? & ->)|[_ ?]];
        try discriminate; try done; lia.
    + split; [intros [= <-]; right; done|].
      intros [(z' & _ & ? & _)|[-> _]]; done.
Qed.

(** ** Looking a column up by name *)


(** The index [get_field_index] gives for a name is the position of the
    field [field_by_name] gives for it. *)
Lemma field_by_name_index (s : Schema) (n : string) (f : Field) :
  field_by_name s n = Some f ->
  Schema_getitem s (get_field_index s n) = Ok f.
Proof.
  unfold field_by_name, get_field_index, Schema_getitem.
  destruct (filter (fun f => name f = n) s) as [|f' [|]] eqn:Hfilter; try done.
  intros [= ->].
  assert (Hf : f ∈ filter (fun f => name f = n) s) by (rewrite Hfilter; left).
  apply list_elem_of_filter in Hf as [Hn Hf].
  destruct (list_find_elem_of (fun f => name f = n) s f Hf Hn) as [[i x] Hfind].
  rewrite Hfind. apply list_find_Some in Hfind as (Hx & Hxn & _).
  assert (Hxf : x ∈ filter (fun f => name f = n) s).
  { apply list_elem_of_filter. split; [done|]. by eapply list_elem_of_lookup_2. }
  rewrite Hfilter in Hxf. apply list_elem_of_singleton in Hxf as ->.
  by apply getitem_of_nat.
Qed.

(** ** Nest depth *)

Lemma nest_depth_loop_shift (t : ArrowType) (k : nat) :
  nest_depth_loop t k
  = (k + fst (nest_depth_loop t 0), snd (nest_depth_loop t 0)).
Proof.
  revert k. induction t; intros k; simpl; try (f_equal; lia).
  rewrite (IHt (S k)), (IHt 1). simpl. f_equal. lia.
Qed.

Lemma nest_depth_one (t vt : ArrowType) :
  nest_depth_loop t 0 = (1, vt) <-> t = list_ vt /\ is_list vt = false.
Proof.
  split.
  - destruct t; simpl; try discriminate.
    rewrite nest_depth_loop_shift. intros [= Hd Hv].
    destruct t; simpl in *; try (by subst).
    rewrite nest_depth_loop_shift in Hd. simpl in Hd. lia.
  - intros [-> Hvt]. simpl. by destruct vt.
Qed.

Lemma supported_not_list (vt : ArrowType) :
  _IsSupportedArrowValueType vt = true -> is_list vt = false.
Proof. by destruct vt. Qed.

(** ** The registry *)

Lemma handler_map_dense :
  dict_get _TYPE_HANDLER_MAP (Some "dense_tensor")
  = Some [_DenseTensorHandler; _DefaultFillingDenseTensorHandler].
Proof. simpl. unfold _TYPE_HANDLER_MAP. by rewrite lookup_insert_eq. Qed.

Lemma handler_map_varlen :
  dict_get _TYPE_HANDLER_MAP (Some "varlen_sparse_tensor")
  = Some [_VarLenSparseTensorHandler].
Proof.
  simpl. unfold _TYPE_HANDLER_MAP.
  rewrite lookup_insert_ne by done. by rewrite lookup_insert_eq.
Qed.

Lemma handler_map_other (kind : option string) :
  kind <> Some "dense_tensor" -> kind <> Some "varlen_sparse_tensor" ->
  dict_get _TYPE_HANDLER_MAP kind = None.
Proof.
  intros Hd Hv. destruct kind as [k|]; simpl; [|done]. unfold _TYPE_HANDLER_MAP.
  rewrite !lookup_insert_ne by congruence. apply lookup_empty.
Qed.

Section find_handler.
Variables (s : Schema) (rep : TensorRepresentation).

Lemma find_handler_first rejecting h rest :
  Forall (fun c => CanHandle c s rep = Ok false) rejecting ->
  CanHandle h s rep = Ok true ->
  find_handler (rejecting ++ h :: rest) s rep
  = new h s rep ≫= fun handler => Ok (Some handler).
Proof.
  intros Hrej Hh. induction Hrej as [|c cs Hc _ IH]; simpl.
  - by rewrite Hh.
  - by rewrite Hc.
Qed.

Lemma find_handler_raise rejecting h rest e :
  Forall (fun c => CanHandle c s rep = Ok false) rejecting ->
  CanHandle h s rep = Raise e ->
  find_handler (rejecting ++ h :: rest) s rep = Raise e.
Proof.
  intros Hrej Hh. induction Hrej as [|c cs Hc _ IH]; simpl.
  - by rewrite Hh.
  - by rewrite Hc.
Qed.

Lemma find_handler_none hs :
  Forall (fun c => CanHandle c s rep = Ok false) hs ->
  find_handler hs s rep = Ok None.
Proof.
  intros Hrej. induction Hrej as [|c cs Hc _ IH]; simpl; [done|].
  by rewrite Hc.
Qed.
End find_handler.

Section build_handler.
Variables (handler_map : gmap string (list HandlerClass)) (s : Schema).

Lemma build_handler_first tensor_name rep rejecting h rest :
  dict_get handler_map (WhichOneof rep) = Some (rejecting ++ h :: rest) ->
  Forall (fun c => CanHandle c s rep = Ok false) rejecting ->
  CanHandle h s rep = Ok true ->
  build_handler handler_map s tensor_name rep = new h s rep.
Proof.
  intros Hget Hrej Hh. unfold build_handler. rewrite Hget.
  rewrite find_handler_first by done.
  destruct (rejecting ++ h :: rest) eqn:Happ; [by destruct rejecting|].
  by destruct (new h s rep).
Qed.

Lemma build_handler_raise tensor_name rep rejecting h rest e :
  dict_get handler_map (WhichOneof rep) = Some (rejecting ++ h :: rest) ->
  Forall (fun c => CanHandle c s rep = Ok false) rejecting ->
  CanHandle h s rep = Raise e ->
  build_handler handler_map s tensor_name rep = Raise e.
Proof.
  intros Hget Hrej Hh. unfold build_handler. rewrite Hget.
  rewrite (find_handler_raise _ _ _ _ _ e) by done.
  by destruct (rejecting ++ h :: rest) eqn:Happ; [destruct rejecting|].
Qed.

Lemma build_handler_none tensor_name rep hs :
  dict_get handler_map (WhichOneof rep) = Some hs -> hs <> [] ->
  Forall (fun c => CanHandle c s rep = Ok false) hs ->
  build_handler handler_map s tensor_name rep
  = Raise (UnableToHandleTensorAgainstSchema tensor_name rep s).
Proof.
  intros Hget Hne Hrej. unfold build_handler. rewrite Hget.
  rewrite find_handler_none by done. by destruct hs.
Qed.

Lemma build_handler_unregistered tensor_name rep :
  dict_get handler_map (WhichOneof rep) = None
  \/ dict_get handler_map (WhichOneof rep) = Some [] ->
  build_handler handler_map s tensor_name rep
  = Raise (UnableToHandleTensor tensor_name rep).
Proof. unfold build_handler. by intros [-> | ->]. Qed.

(** The outer loop. *)
Lemma build_handlers_loop_app items1 items2 result :
  build_handlers_loop handler_map (items1 ++ items2) s result
  = build_handlers_loop handler_map items1 s result
      ≫= build_handlers_loop handler_map items2 s.
Proof.
  revert result. induction items1 as [|[n rep] items1 IH]; intros result; simpl.
  - done.
  - destruct (build_handler handler_map s n rep); simpl; [apply IH|done].
Qed.

Lemma build_handlers_loop_Ok items result handlers :
  build_handlers_loop handler_map items s result = Ok handlers ->
  exists built,
    handlers = result ++ built
    /\ Forall2 (fun item nh =>
                 fst nh = fst item
                 /\ build_handler handler_map s (fst item) (snd item) = Ok (snd nh))
         items built.
Proof.
  revert result. induction items as [|[n rep] items IH]; intros result; simpl.
  - intros [= <-]. exists []. by rewrite app_nil_r.
  - intros H. apply bind_Ok in H as (h & Hh & H).
    apply IH in H as (built & -> & Hbuilt).
    exists ((n, h) :: built). rewrite <- app_assoc. split; [done|].
    by constructor.
Qed.

Lemma build_handlers_loop_Raise items result tensor_name rep e :
  (tensor_name, rep) ∈ items ->
  build_handler handler_map s tensor_name rep = Raise e ->
  is_Ok (build_handlers_loop handler_map items s result) = false.
Proof.
  intros Hin Hraise. revert result.
  induction items as [|[n r] items IH]; intros result.
  - by apply elem_of_nil in Hin.
  - simpl. apply elem_of_cons in Hin as [[= <- <-]|Hin].
    + by rewrite Hraise.
    + destruct (build_handler handler_map s n r); simpl; [by apply IH|done].
Qed.

Lemma build_handlers_loop_first_Raise before after result tensor_name rep e :
  is_Ok (build_handlers_loop handler_map before s result) = true ->
  build_handler handler_map s tensor_name rep = Raise e ->
  build_handlers_loop handler_map (before ++ (tensor_name, rep) :: after) s result
  = Raise e.
Proof.
  intros Hbefore Hraise. rewrite build_handlers_loop_app.
  apply is_Ok_true in Hbefore as (hs & ->). simpl. by rewrite Hraise.
Qed.
End build_handler.

(** Construction of the adapter fails when the handler of one of its outputs
    cannot be built, and with the error of the first such output. *)
Lemma TensorAdapter_init_Raise s tensor_name rep e :
  build_handler _TYPE_HANDLER_MAP s tensor_name rep = Raise e ->
  construction_fails_with s tensor_name rep e.
Proof.
  intros Hraise before after.
  unfold TensorAdapter_init, _BuildTypeHandlers. simpl. split.
  - pose proof (build_handlers_loop_Raise _TYPE_HANDLER_MAP s
                  (before ++ (tensor_name, rep) :: after) [] tensor_name rep e) as H.
    destruct (build_handlers_loop _ _ s []); simpl in *; [|done].
    apply H; [|done]. apply elem_of_app. right. left.
  - intros Hbefore.
    by rewrite (build_handlers_loop_first_Raise _ _ _ _ _ _ _ e).
Qed.

(** ** The compatibility predicates *)

Lemma BaseCanHandle_found s rep f :
  field_by_name s (column_name (rep_dense_tensor rep)) = Some f ->
  BaseCanHandle s rep
  = Ok (Nat.eqb (fst (nest_depth_loop (type f) 0)) 1
        && _IsSupportedArrowValueType (snd (nest_depth_loop (type f) 0))).
Proof. unfold BaseCanHandle. by intros ->. Qed.

Lemma BaseCanHandle_absent s rep :
  field_by_name s (column_name (rep_dense_tensor rep)) = None ->
  BaseCanHandle s rep = Raise NoneTypeHasNoAttributeType.
Proof. unfold BaseCanHandle. by intros ->. Qed.

Lemma VarLenSparseTensorHandler_CanHandle_found s rep f :
  field_by_name s (rep_varlen_column_name rep) = Some f ->
  VarLenSparseTensorHandler_CanHandle s rep
  = Ok (Nat.eqb (fst (nest_depth_loop (type f) 0)) 1
        && _IsSupportedArrowValueType (snd (nest_depth_loop (type f) 0))).
Proof. unfold VarLenSparseTensorHandler_CanHandle. by intros ->. Qed.

(** A depth-1 column of a supported element type passes the structural
    check; any other depth, or an unsupported element type, fails it. *)
Lemma structural_check_true (t vt : ArrowType) :
  t = list_ vt -> _IsSupportedArrowValueType vt = true ->
  Nat.eqb (fst (nest_depth_loop t 0)) 1
  && _IsSupportedArrowValueType (snd (nest_depth_loop t 0)) = true.
Proof.
  intros -> Hvt.
  rewrite (proj2 (nest_depth_one (list_ vt) vt)); [simpl; by rewrite Hvt|].
  split; [done|]. by apply supported_not_list.
Qed.

Lemma structural_check_false (t : ArrowType) :
  fst (nest_depth_loop t 0) <> 1
  \/ _IsSupportedArrowValueType (snd (nest_depth_loop t 0)) = false ->
  Nat.eqb (fst (nest_depth_loop t 0)) 1
  && _IsSupportedArrowValueType (snd (nest_depth_loop t 0)) = false.
Proof.
  intros [Hd| ->]; [|by rewrite andb_false_r].
  by destruct (Nat.eqb_spec (fst (nest_depth_loop t 0)) 1).
Qed.

(** For a dense representation on a column that passes the structural check,
    the handler is the plain one without a default value and the
    default-filling one with one. *)
Lemma build_handler_dense s tensor_name d f :
  field_by_name s (column_name d) = Some f ->
  Nat.eqb (fst (nest_depth_loop (type f) 0)) 1
  && _IsSupportedArrowValueType (snd (nest_depth_loop (type f) 0)) = true ->
  build_handler _TYPE_HANDLER_MAP s tensor_name (dense_tensor d)
  = match default_value d with
    | None => new _DenseTensorHandler s (dense_tensor d)
    | Some _ => new _DefaultFillingDenseTensorHandler s (dense_tensor d)
    end.
Proof.
  intros Hf Hcheck.
  pose proof (BaseCanHandle_found s (dense_tensor d) f Hf) as Hbase.
  rewrite Hcheck in Hbase.
  destruct (default_value d) as [dv|] eqn:Hdv.
  - apply (build_handler_first _ _ _ _ [_DenseTensorHandler] _ []).
    + apply handler_map_dense.
    + repeat constructor. simpl. unfold DenseTensorHandler_CanHandle,
        HasField_default_value. rewrite Hbase. simpl. by rewrite Hdv.
    + simpl. unfold DefaultFillingDenseTensorHandler_CanHandle,
        HasField_default_value. rewrite Hbase. simpl. by rewrite Hdv.
  - apply (build_handler_first _ _ _ _ [] _ [_DefaultFillingDenseTensorHandler]).
    + apply handler_map_dense.
    + constructor.
    + simpl. unfold DenseTensorHandler_CanHandle, HasField_default_value.
      rewrite Hbase. simpl. by rewrite Hdv.
Qed.

Lemma build_handler_varlen s tensor_name column f :
  field_by_name s column = Some f ->
  Nat.eqb (fst (nest_depth_loop (type f) 0)) 1
  && _IsSupportedArrowValueType (snd (nest_depth_loop (type f) 0)) = true ->
  build_handler _TYPE_HANDLER_MAP s tensor_name (varlen_sparse_tensor column)
  = new _VarLenSparseTensorHandler s (varlen_sparse_tensor column).
Proof.
  intros Hf Hcheck.
  apply (build_handler_first _ _ _ _ [] _ []).
  - apply handler_map_varlen.
  - constructor.
  - simpl. rewrite (VarLenSparseTensorHandler_CanHandle_found _ _ f) by done.
    by rewrite Hcheck.
Qed.

(** C5.  Validation of the default value.  A default is accepted exactly when
    it is an integer default for an integer column within the range of the
    column's width, a floating default for a floating column, or a
    byte-string default for a byte-string column.  Every other default is
    rejected: an integer default outside the range of an integer column with
    the out-of-range error naming the value and the column type, anything
    else (the unset kind included) with the incompatible-default error naming
    the kind and the column type.  A rejected default makes the construction
    of the adapter fail, with this error when the outputs before it
    resolve. *)
Theorem default_value_validation :
  (forall vt dv v,
      _GetAllowedDefaultValue vt dv = Ok v <-> default_value_allowed vt dv v)
  /\ (forall vt dv e,
      _GetAllowedDefaultValue vt dv = Raise e <-> default_value_rejected vt dv e)
  /\ (forall s tensor_name d dv f vt e,
      default_value d = Some dv ->
      field_by_name s (column_name d) = Some f ->
      type f = list_ vt ->
      _IsSupportedArrowValueType vt = true ->
      _GetAllowedDefaultValue vt dv = Raise e ->
      construction_fails_with s tensor_name (dense_tensor d) e).
Proof.
  split_and!.
  - apply GetAllowedDefaultValue_Ok.
  - apply GetAllowedDefaultValue_Raise.
  - intros s tensor_name d dv f vt e Hdv Hf Ht Hvt Hraise.
    apply TensorAdapter_init_Raise.
    rewrite (build_handler_dense _ _ _ f Hf) by by eapply structural_check_true.
    rewrite Hdv. simpl. unfold DefaultFillingDenseTensorHandler_init.
    destruct (BaseDenseTensorHandler_init s (dense_tensor d)) as [base|e'] eqn:Hbase.
    + apply BaseDenseTensorHandler_init_Ok in Hbase as (f' & Hf' & ->). simpl in *.
      rewrite (field_by_name_index _ _ _ Hf) in Hf'. injection Hf' as <-.
      rewrite (field_by_name_index _ _ _ Hf). simpl.
      rewrite (proj2 (nest_depth_one (type f) vt))
        by (split; [done|by apply supported_not_list]).
      simpl. unfold _GetDefaultFill, get_default_value. rewrite Hdv. simpl.
      by rewrite Hraise.
    + exfalso. unfold BaseDenseTensorHandler_init in Hbase. simpl in Hbase.
      by rewrite (field_by_name_index _ _ _ Hf) in Hbase.
Qed.

Lemma default_value_validation_witness :
  construction_fails_with [field "column" (list_ int64)] "tensor"
    (dense_tensor
       (mkDenseTensor "column" [] (Some (uint_value 18446744073709551615))))
    (IntegerDefaultValueOutOfRange 18446744073709551615 int64).
Proof.
  apply (proj2 (proj2 default_value_validation)
           [field "column" (list_ int64)] "tensor"
           (mkDenseTensor "column" [] (Some (uint_value 18446744073709551615)))
           (uint_value 18446744073709551615)
           (field "column" (list_ int64)) int64).
  - reflexivity.
  - reflexivity.
  - reflexivity.
  - reflexivity.
  - reflexivity.
Defined.



(** C9.  Handler resolution.  The candidates registered for the kind of the
    representation are tried in list order and the first whose [CanHandle]
    accepts is instantiated; for dense outputs the plain handler comes before
    the default-filling one and the two differ exactly in the presence of a
    default value.  A kind without registered handlers fails naming the
    output and the representation; when every candidate rejects (a column of
    a depth other than 1 or of an unsupported element type, for dense and
    for sparse) resolution fails naming the output, the representation and
    the schema, and so does the construction of the adapter. *)
Theorem handler_resolution :
  (forall handler_map s tensor_name rep rejecting h rest,
      dict_get handler_map (WhichOneof rep) = Some (rejecting ++ h :: rest) ->
      Forall (fun c => CanHandle c s rep = Ok false) rejecting ->
      CanHandle h s rep = Ok true ->
      build_handler handler_map s tensor_name rep = new h s rep)
  /\ dict_get _TYPE_HANDLER_MAP (Some "dense_tensor")
     = Some [_DenseTensorHandler; _DefaultFillingDenseTensorHandler]
  /\ dict_get _TYPE_HANDLER_MAP (Some "varlen_sparse_tensor")
     = Some [_VarLenSparseTensorHandler]
  /\ (forall s d,
      CanHandle _DenseTensorHandler s (dense_tensor d) = Ok true
      <-> BaseCanHandle s (dense_tensor d) = Ok true /\ default_value d = None)
  /\ (forall s d,
      CanHandle _DefaultFillingDenseTensorHandler s (dense_tensor d) = Ok true
      <-> BaseCanHandle s (dense_tensor d) = Ok true
          /\ is_Some (default_value d))
  /\ (forall s tensor_name d f,
      field_by_name s (column_name d) = Some f ->
      Nat.eqb (fst (nest_depth_loop (type f) 0)) 1
      && _IsSupportedArrowValueType (snd (nest_depth_loop (type f) 0)) = true ->
      build_handler _TYPE_HANDLER_MAP s tensor_name (dense_tensor d)
      = match default_value d with
        | None => new _DenseTensorHandler s (dense_tensor d)
        | Some _ => new _DefaultFillingDenseTensorHandler s (dense_tensor d)
        end)
  /\ (forall handler_map s tensor_name rep,
      dict_get handler_map (WhichOneof rep) = None
      \/ dict_get handler_map (WhichOneof rep) = Some [] ->
      build_handler handler_map s tensor_name rep
      = Raise (UnableToHandleTensor tensor_name rep))
  /\ (forall s tensor_name rep,
      rep = rep_not_set \/ (exists c, rep = sparse_tensor c) ->
      construction_fails_with s tensor_name rep
        (UnableToHandleTensor tensor_name rep))
  /\ (forall handler_map s tensor_name rep hs,
      dict_get handler_map (WhichOneof rep) = Some hs -> hs <> [] ->
      Forall (fun c => CanHandle c s rep = Ok false) hs ->
      build_handler handler_map s tensor_name rep
      = Raise (UnableToHandleTensorAgainstSchema tensor_name rep s))
  /\ (forall s tensor_name rep column f,
      (exists d, rep = dense_tensor d /\ column_name d = column)
      \/ rep = varlen_sparse_tensor column ->
      field_by_name s column = Some f ->
      fst (nest_depth_loop (type f) 0) <> 1
      \/ _IsSupportedArrowValueType (snd (nest_depth_loop (type f) 0)) = false ->
      construction_fails_with s tensor_name rep
        (UnableToHandleTensorAgainstSchema tensor_name rep s)).
Proof.
  split_and!.
  - intros. by eapply build_handler_first.
  - apply handler_map_dense.
  - apply handler_map_varlen.
  - intros s d. simpl. unfold DenseTensorHandler_CanHandle, HasField_default_value.
    destruct (BaseCanHandle s (dense_tensor d)) as [[|]|e]; simpl;
      destruct (default_value d); simpl; split;
      try done; try (by intros [? ?]); by intros [_ [v ?]].
  - intros s d. simpl.
    unfold DefaultFillingDenseTensorHandler_CanHandle, HasField_default_value.
    destruct (BaseCanHandle s (dense_tensor d)) as [[|]|e]; simpl;
      destruct (default_value d); simpl; split;
      try done; try (by intros [? ?]); try (by intros [_ [v ?]]); eauto.
  - intros. by eapply build_handler_dense.
  - intros. by apply build_handler_unregistered.
  - intros s tensor_name rep Hrep. apply TensorAdapter_init_Raise.
    apply build_handler_unregistered. left. apply handler_map_other.
    + by destruct Hrep as [-> | (c & ->)].
    + by destruct Hrep as [-> | (c & ->)].
  - intros. by eapply build_handler_none.
  - intros s tensor_name rep column f Hrep Hf Hcheck.
    apply structural_check_false in Hcheck.
    apply TensorAdapter_init_Raise.
    destruct Hrep as [(d & -> & <-)| ->].
    + pose proof (BaseCanHandle_found s (dense_tensor d) f Hf) as Hbase.
      rewrite Hcheck in Hbase.
      apply (build_handler_none _ _ _ _
               [_DenseTensorHandler; _DefaultFillingDenseTensorHandler]).
      * apply handler_map_dense.
      * done.
      * repeat constructor; simpl.
        -- unfold DenseTensorHandler_CanHandle. by rewrite Hbase.
        -- unfold DefaultFillingDenseTensorHandler_CanHandle. by rewrite Hbase.
    + apply (build_handler_none _ _ _ _ [_VarLenSparseTensorHandler]).
      * apply handler_map_varlen.
      * done.
      * repeat constructor. simpl.
        rewrite (VarLenSparseTensorHandler_CanHandle_found _ _ f) by done.
        by rewrite Hcheck.
Qed.

Lemma handler_resolution_witness :
  construction_fails_with
    [field "unsupported_column" (list_ (list_ int64))] "tensor"
    (dense_tensor (mkDenseTensor "unsupported_column" [] None))
    (UnableToHandleTensorAgainstSchema "tensor"
       (dense_tensor (mkDenseTensor "unsupported_column" [] None))
       [field "unsupported_column" (list_ (list_ int64))]).
Proof.
  apply (proj2 (proj2 (proj2 (proj2 (proj2 (proj2 (proj2 (proj2 (proj2
           handler_resolution))))))))
           [field "unsupported_column" (list_ (list_ int64))] "tensor"
           (dense_tensor (mkDenseTensor "unsupported_column" [] None))
           "unsupported_column"
           (field "unsupported_column" (list_ (list_ int64)))).
  - left. eexists. split; reflexivity.
  - reflexivity.
  - left. simpl. lia.
Defined.

(** ** Converting a batch *)




(** ** Sparse conversion *)

Lemma pairs_flat_map (r : nat) (ps rest : list nat) :
  pairs (flat_map (fun p => [r; p]) ps ++ rest)
  = ((fun p => (r, p)) <$> ps) ++ pairs rest.
Proof. induction ps as [|p ps IH]; csimpl; [done|]. by rewrite IH. Qed.

Lemma length_flat_map_pair (r : nat) (ps : list nat) :
  length (flat_map (fun p => [r; p]) ps) = length ps * 2.
Proof. induction ps as [|p ps IH]; simpl; [done|]. rewrite IH. lia. Qed.

Lemma length_coo_from (r : nat) (rws : list (option (list Value))) :
  length (coo_from r rws) = length (mjoin (row_values <$> rws)) * 2.
Proof.
  revert r. induction rws as [|row rws IH]; intros r; csimpl; [done|].
  rewrite !length_app, length_flat_map_pair, length_seq, IH. lia.
Qed.

Lemma pairs_coo_from (r : nat) (rws : list (option (list Value))) :
  pairs (coo_from r rws)
  = mjoin (imap (fun i row => (fun p => (r + i, p)) <$> seq 0 (length row))
             (row_values <$> rws)).
Proof.
  revert r. induction rws as [|row rws IH]; intros r; csimpl; [done|].
  rewrite pairs_flat_map, IH, Nat.add_0_r. f_equal. f_equal.
  apply imap_ext. intros i x _. simpl. by rewrite Nat.add_succ_r.
Qed.

Lemma max_row_length_max_list (rws : list (option (list Value))) :
  max_row_length rws = max_list (length <$> (row_values <$> rws)).
Proof. induction rws as [|row rws IH]; csimpl; [done|]. by rewrite <- IH. Qed.

Lemma coordinates_of_lengths (rws : list (list Value)) :
  length <$> imap (fun r row => (fun p => (r, p)) <$> seq 0 (length row)) rws
  = length <$> rws.
Proof.
  apply list_eq. intros i. rewrite !list_lookup_fmap, list_lookup_imap.
  destruct (rws !! i); simpl; [|done]. by rewrite length_fmap, length_seq.
Qed.

Lemma coordinates_of_take_lengths (rws : list (list Value)) (r : nat) :
  length <$> take r
    (imap (fun r row => (fun p => (r, p)) <$> seq 0 (length row)) rws)
  = length <$> take r rws.
Proof. by rewrite !fmap_take, coordinates_of_lengths. Qed.

(** Where a coordinate sits in the list: after the coordinates of the rows
    before its row, at its position. *)
Lemma coordinates_of_lookup (rws : list (list Value)) (k r p : nat) :
  coordinates_of rws !! k = Some (r, p)
  <-> exists row, rws !! r = Some row /\ p < length row
                  /\ k = sum_list (length <$> take r rws) + p.
Proof.
  unfold coordinates_of. rewrite join_lookup_Some. split.
  - intros (j & l & i & Hl & Hi & ->).
    rewrite list_lookup_imap in Hl. apply fmap_Some in Hl as (row & Hrow & ->).
    rewrite list_lookup_fmap in Hi. apply fmap_Some in Hi as (p' & Hp' & [= -> ->]).
    apply lookup_seq in Hp' as [-> Hlt]. exists row. split_and!; try done.
    by rewrite coordinates_of_take_lengths.
  - intros (row & Hrow & Hlt & ->).
    exists r, ((fun p => (r, p)) <$> seq 0 (length row)), p. split_and!.
    + by rewrite list_lookup_imap, Hrow.
    + rewrite list_lookup_fmap, (lookup_seq_lt _ _ _ Hlt). done.
    + by rewrite coordinates_of_take_lengths.
Qed.

Lemma sum_list_take_le (ns : list nat) (i j : nat) (n : nat) :
  i < j -> ns !! i = Some n ->
  sum_list (take i ns) + n <= sum_list (take j ns).
Proof.
  revert i j. induction ns as [|m ns IH]; intros i j Hlt Hn; [done|].
  destruct j as [|j]; [lia|]. destruct i as [|i]; simpl in *.
  - injection Hn as ->. lia.
  - assert (i < j) as Hij by lia. specialize (IH i j Hij Hn). lia.
Qed.

(** C6.  The sparse handler returns the coordinates [(r, p)] of every
    position [p] of every row [r], a null row counting as empty, by row and
    then by position; the values are the scalars at these coordinates in the
    same order; the dense shape is the batch size and the largest row length
    (0 for an empty batch).  The number of coordinates is the sum of the row
    lengths. *)
Theorem varlen_sparse (column_index : Z) (dtype : DType) (rb : RecordBatch)
    (column : ListArray) :
  RecordBatch_column rb column_index = Ok column ->
  let rws := row_values <$> rows column in
  GetTensor (VarLenSparseTensorHandler column_index dtype) rb
    = Ok (SparseTensorValue (coordinates_of rws)
            (mkndarray [length (mjoin rws)]
               (to_pandas_dtype (value_type column)) (mjoin rws))
            [length (rows column); max_list (length <$> rws)])
  /\ length (coordinates_of rws) = sum_list (length <$> rws)
  /\ (forall k r p,
        coordinates_of rws !! k = Some (r, p) ->
        exists row v, rws !! r = Some row /\ row !! p = Some v
                      /\ mjoin rws !! k = Some v)
  /\ (forall r row p,
        rws !! r = Some row -> p < length row -> (r, p) ∈ coordinates_of rws)
  /\ (forall i j r1 p1 r2 p2,
        i < j ->
        coordinates_of rws !! i = Some (r1, p1) ->
        coordinates_of rws !! j = Some (r2, p2) ->
        r1 < r2 \/ (r1 = r2 /\ p1 < p2)).
Proof.
  intros Hcol rws. split_and!.
  - simpl. unfold VarLenSparseTensorHandler_GetTensor. rewrite Hcol. simpl.
    unfold reshape_n_2, nd_size. simpl.
    rewrite length_coo_from, Nat.eqb_refl, pairs_coo_from. simpl.
    by rewrite max_row_length_max_list.
  - unfold coordinates_of. by rewrite length_join, coordinates_of_lengths.
  - intros k r p Hk. apply coordinates_of_lookup in Hk as (row & Hrow & Hlt & ->).
    destruct (lookup_lt_is_Some_2 row p Hlt) as [v Hv].
    exists row, v. split_and!; try done.
    apply join_lookup_Some. by exists r, row, p.
  - intros r row p Hrow Hlt. apply list_elem_of_lookup.
    exists (sum_list (length <$> take r rws) + p).
    apply coordinates_of_lookup. by exists row.
  - intros i j r1 p1 r2 p2 Hij Hi Hj.
    apply coordinates_of_lookup in Hi as (row1 & Hrow1 & Hlt1 & ->).
    apply coordinates_of_lookup in Hj as (row2 & Hrow2 & Hlt2 & ->).
    destruct (Nat.lt_trichotomy r1 r2) as [?|[->|Hgt]]; [by left|right; lia|].
    exfalso.
    pose proof (sum_list_take_le (length <$> rws) r2 r1 (length row2) Hgt) as Hle.
    rewrite list_lookup_fmap, Hrow2 in Hle. specialize (Hle eq_refl).
    rewrite !fmap_take in Hij. lia.
Qed.

Lemma varlen_sparse_witness :
  GetTensor (VarLenSparseTensorHandler 0 tf_int64) TestData.sparse_batch
    = Ok (SparseTensorValue [(0, 0); (0, 1); (2, 0); (4, 0)]
            (mkndarray [4] np_int64 (TestData.ints [1; 2; 3; 5]%Z)) [5; 2])
  /\ length (coordinates_of (row_values <$> rows TestData.sparse_column))
     = sum_list [2; 0; 1; 0; 1]
  /\ (forall k r p,
        coordinates_of (row_values <$> rows TestData.sparse_column) !! k
        = Some (r, p) ->
        exists row v,
          (row_values <$> rows TestData.sparse_column) !! r = Some row
          /\ row !! p = Some v
          /\ TestData.ints [1; 2; 3; 5]%Z !! k = Some v)
  /\ (forall r row p,
        (row_values <$> rows TestData.sparse_column) !! r = Some row ->
        p < length row ->
        (r, p) ∈ coordinates_of (row_values <$> rows TestData.sparse_column))
  /\ (forall i j r1 p1 r2 p2,
        i < j ->
        coordinates_of (row_values <$> rows TestData.sparse_column) !! i
        = Some (r1, p1) ->
        coordinates_of (row_values <$> rows TestData.sparse_column) !! j
        = Some (r2, p2) ->
        r1 < r2 \/ (r1 = r2 /\ p1 < p2)).
Proof.
  apply (varlen_sparse 0 tf_int64 TestData.sparse_batch TestData.sparse_column).
  reflexivity.
Defined.

(** ** Signatures and converted values *)










(** * Further properties of the code *)

(** ** Nest depth and value type *)

Lemma nest_depth_loop_iter (t vt : ArrowType) (depth : nat) :
  nest_depth_loop t 0 = (depth, vt)
  <-> t = Nat.iter depth list_ vt /\ is_list vt = false.
Proof.
  revert t. induction depth as [|depth IH]; intros t; simpl.
  - split.
    + destruct t; simpl; try (by intros [= <-]).
      rewrite nest_depth_loop_shift. intros H. injection H as Hd _. lia.
    + intros [-> Hvt]. by destruct vt.
  - split.
    + destruct t; simpl; try discriminate.
      rewrite nest_depth_loop_shift. intros H. injection H as Hd Hv.
      destruct (proj1 (IH t)) as [-> Hvt]; [|done].
      rewrite <- Hd, <- Hv. by destruct (nest_depth_loop t 0).
    + intros [-> Hvt]. simpl. rewrite nest_depth_loop_shift.
      by rewrite (proj2 (IH _) (conj eq_refl Hvt)).
Qed.

(** X1.  [_GetNestDepthAndValueType] returns [(depth, value_type)] exactly
    when the type of the field is [depth] list layers around [value_type] and
    [value_type] is not a list: the returned pair rebuilds the type. *)
Theorem nest_depth_and_value_type (f : Field) (depth : nat) (vt : ArrowType) :
  _GetNestDepthAndValueType (Some f) = Ok (depth, vt)
  <-> type f = Nat.iter depth list_ vt /\ is_list vt = false.
Proof.
  simpl. rewrite <- nest_depth_loop_iter. split; [by intros [= ->]|by intros ->].
Qed.

(** ** What construction builds *)

Lemma field_by_name_position (s : Schema) (n : string) (f : Field) :
  field_by_name s n = Some f ->
  exists j, get_field_index s n = Z.of_nat j /\ s !! j = Some f /\ name f = n.
Proof.
  unfold field_by_name, get_field_index.
  destruct (filter (fun f => name f = n) s) as [|f' [|]] eqn:Hfilter; try done.
  intros [= ->].
  assert (Hf : f ∈ filter (fun f => name f = n) s) by (rewrite Hfilter; left).
  apply list_elem_of_filter in Hf as [Hn Hf].
  destruct (list_find_elem_of (fun f => name f = n) s f Hf Hn) as [[i x] Hfind].
  rewrite Hfind. apply list_find_Some in Hfind as (Hx & Hxn & _).
  assert (Hxf : x ∈ filter (fun f => name f = n) s).
  { apply list_elem_of_filter. split; [done|]. by eapply list_elem_of_lookup_2. }
  rewrite Hfilter in Hxf. apply list_elem_of_singleton in Hxf as ->.
  by exists i.
Qed.

Lemma column_usable_check s column vt f :
  field_by_name s column = Some f ->
  (type f = list_ vt /\ _IsSupportedArrowValueType vt = true)
  <-> (Nat.eqb (fst (nest_depth_loop (type f) 0)) 1
       && _IsSupportedArrowValueType (snd (nest_depth_loop (type f) 0)) = true
       /\ snd (nest_depth_loop (type f) 0) = vt).
Proof.
  intros _. split.
  - intros [Ht Hvt]. split; [by eapply structural_check_true|].
    rewrite Ht. simpl. by destruct vt.
  - intros [Hcheck <-]. apply andb_true_iff in Hcheck as [Hdepth Hsup].
    apply Nat.eqb_eq in Hdepth. split; [|done].
    assert (Hone : nest_depth_loop (type f) 0
                   = (1, snd (nest_depth_loop (type f) 0))).
    { rewrite <- Hdepth. by destruct (nest_depth_loop (type f) 0). }
    by apply nest_depth_one in Hone as [Ht _].
Qed.

Lemma BaseDenseTensorHandler_init_found s d f :
  field_by_name s (column_name d) = Some f ->
  BaseDenseTensorHandler_init s (dense_tensor d)
  = Ok (mkBaseDense (get_field_index s (column_name d))
          (_ArrowTypeToTfDtype (snd (nest_depth_loop (type f) 0)))
          (None :: (Some <$> shape_dim d)) (np_prod (shape_dim d))).
Proof.
  intros Hf. unfold BaseDenseTensorHandler_init. simpl.
  by rewrite (field_by_name_index _ _ _ Hf).
Qed.

(** The registry builds a handler exactly when the representation names a
    usable column (and carries a valid default, if any), and the handler is
    then the one [handler_built_for] describes. *)
Lemma build_handler_Ok s tensor_name rep h :
  build_handler _TYPE_HANDLER_MAP s tensor_name rep = Ok h
  <-> handler_built_for s rep h.
Proof.
  destruct rep as [|d|column|column]; simpl.
  - rewrite build_handler_unregistered by (left; by apply handler_map_other).
    done.
  - destruct (field_by_name s (column_name d)) as [f|] eqn:Hf.
    + destruct (Nat.eqb (fst (nest_depth_loop (type f) 0)) 1
                && _IsSupportedArrowValueType (snd (nest_depth_loop (type f) 0)))
        eqn:Hcheck.
      * rewrite (build_handler_dense _ _ _ f Hf Hcheck).
        pose proof (proj2 (column_usable_check s _ _ f Hf)
                      (conj Hcheck eq_refl)) as [Ht Hsup].
        assert (Hvt : forall vt, column_usable s (column_name d) vt ->
                      vt = snd (nest_depth_loop (type f) 0)).
        { intros vt (f' & Hf' & Ht' & _). rewrite Hf in Hf'. injection Hf' as <-.
          rewrite Ht in Ht'. by injection Ht'. }
        assert (Huse : column_usable s (column_name d)
                         (snd (nest_depth_loop (type f) 0))) by by exists f.
        destruct (default_value d) as [dv|] eqn:Hdv; simpl.
        -- unfold DefaultFillingDenseTensorHandler_init.
           rewrite (BaseDenseTensorHandler_init_found _ _ f Hf). simpl.
           rewrite (field_by_name_index _ _ _ Hf). simpl.
           unfold _GetDefaultFill, get_default_value. rewrite omap_id_Some, Hdv.
           simpl. split.
           ++ intros H.
              destruct (_GetAllowedDefaultValue _ dv) as [v|e] eqn:Hv; [|done].
              simpl in H. injection H as <-. eexists. split; [done|]. by exists v.
           ++ intros (vt & Hu & v & Hv & ->). rewrite (Hvt vt Hu) in *.
              by rewrite Hv.
        -- unfold DenseTensorHandler_init.
           rewrite (BaseDenseTensorHandler_init_found _ _ f Hf). simpl. split.
           ++ intros [= <-]. by eexists.
           ++ intros (vt & Hu & ->). by rewrite (Hvt vt Hu).
      * pose proof (BaseCanHandle_found s (dense_tensor d) f Hf) as Hbase.
        rewrite Hcheck in Hbase.
        rewrite (build_handler_none _ _ _ _
                   [_DenseTensorHandler; _DefaultFillingDenseTensorHandler]);
          [|apply handler_map_dense|done|].
        -- split; [done|]. intros (vt & (f' & Hf' & Ht & Hsup) & _).
           rewrite Hf in Hf'. injection Hf' as <-.
           by rewrite (structural_check_true _ vt) in Hcheck.
        -- repeat constructor; simpl.
           ++ unfold DenseTensorHandler_CanHandle. by rewrite Hbase.
           ++ unfold DefaultFillingDenseTensorHandler_CanHandle. by rewrite Hbase.
    + rewrite (build_handler_raise _ _ _ _ [] _DenseTensorHandler
                 [_DefaultFillingDenseTensorHandler] NoneTypeHasNoAttributeType);
        [|apply handler_map_dense|constructor|].
      * split; [done|]. intros (vt & (f' & Hf' & _) & _). congruence.
      * simpl. unfold DenseTensorHandler_CanHandle.
        by rewrite BaseCanHandle_absent.
  - destruct (field_by_name s column) as [f|] eqn:Hf.
    + destruct (Nat.eqb (fst (nest_depth_loop (type f) 0)) 1
                && _IsSupportedArrowValueType (snd (nest_depth_loop (type f) 0)))
        eqn:Hcheck.
      * rewrite (build_handler_varlen _ _ _ f Hf Hcheck).
        pose proof (proj2 (column_usable_check s _ _ f Hf)
                      (conj Hcheck eq_refl)) as [Ht Hsup].
        simpl. unfold VarLenSparseTensorHandler_init. simpl.
        rewrite (field_by_name_index _ _ _ Hf). simpl. split.
        -- intros [= <-]. eexists. split; [by exists f|done].
        -- intros (vt & (f' & Hf' & Ht' & _) & ->).
           rewrite Hf in Hf'. injection Hf' as <-.
           rewrite Ht in Ht'. by injection Ht' as <-.
      * rewrite (build_handler_none _ _ _ _ [_VarLenSparseTensorHandler]);
          [|apply handler_map_varlen|done|].
        -- split; [done|]. intros (vt & (f' & Hf' & Ht & Hsup) & _).
           rewrite Hf in Hf'. injection Hf' as <-.
           by rewrite (structural_check_true _ vt) in Hcheck.
        -- repeat constructor. simpl.
           rewrite (VarLenSparseTensorHandler_CanHandle_found _ _ f) by done.
           by rewrite Hcheck.
    + rewrite (build_handler_raise _ _ _ _ [] _VarLenSparseTensorHandler []
                 NoneTypeHasNoAttributeType);
        [|apply handler_map_varlen|constructor|].
      * split; [done|]. intros (vt & (f' & Hf' & _) & _). congruence.
      * simpl. unfold VarLenSparseTensorHandler_CanHandle. simpl. by rewrite Hf.
  - rewrite build_handler_unregistered by (left; by apply handler_map_other).
    done.
Qed.


Lemma build_handlers_loop_Forall2 handler_map s items result built :
  Forall2 (fun item nh =>
             fst nh = fst item
             /\ build_handler handler_map s (fst item) (snd item) = Ok (snd nh))
    items built ->
  build_handlers_loop handler_map items s result = Ok (result ++ built).
Proof.
  intros Hbuilt. revert result.
  induction Hbuilt as [|[n rep] [n' h] items built [Hn Hh] _ IH]; intros result;
    simpl in *.
  - by rewrite app_nil_r.
  - subst n'. rewrite Hh. simpl. rewrite IH, <- app_assoc. done.
Qed.

(** The adapter is built exactly from the handlers of its outputs, one per
    item and in the order of the items. *)
Lemma TensorAdapter_init_Forall2 (s : Schema)
    (items : list (string * TensorRepresentation)) (self : TensorAdapter) :
  TensorAdapter_init (mkTensorAdapterConfig s items) = Ok self
  <-> exists handlers,
        Forall2 (fun item nh =>
                   fst nh = fst item /\ handler_built_for s (snd item) (snd nh))
          items handlers
        /\ self = mkTensorAdapter s handlers (type_specs_of handlers).
Proof.
  unfold TensorAdapter_init, _BuildTypeHandlers. simpl. split.
  - intros H. apply bind_Ok in H as (handlers & Hbuild & [= <-]).
    apply build_handlers_loop_Ok in Hbuild as (built & -> & Hbuilt). simpl.
    exists built. split; [|done].
    eapply Forall2_impl; [exact Hbuilt|]. intros item nh [Hn Hh].
    split; [done|]. by eapply build_handler_Ok.
  - intros (handlers & Hbuilt & ->).
    rewrite (build_handlers_loop_Forall2 _ _ _ [] handlers); [done|].
    eapply Forall2_impl; [exact Hbuilt|]. intros item nh [Hn Hh].
    split; [done|]. by apply build_handler_Ok.
Qed.


(** X3.  In an adapter that was built, the handler at position [i] carries
    the name of the item at position [i] and is the handler of the item's
    representation; its column index is a position of the schema, never the
    [-1] of a missing name, and the field at that position has the name the
    representation gives. *)
Theorem built_handlers (config : TensorAdapterConfig) (self : TensorAdapter)
    (i : nat) (tensor_name : string) (h : TypeHandler) :
  TensorAdapter_init config = Ok self ->
  _type_handlers self !! i = Some (tensor_name, h) ->
  length (_type_handlers self) = length (tensor_representations config)
  /\ exists rep j f,
      tensor_representations config !! i = Some (tensor_name, rep)
      /\ handler_built_for (arrow_schema config) rep h
      /\ handler_column_index h = Z.of_nat j
      /\ arrow_schema config !! j = Some f
      /\ name f = representation_column rep
      /\ is_dense_handler h
         = match rep with dense_tensor _ => true | _ => false end.
Proof.
  destruct config as [s items]. simpl. intros Hinit Hi.
  apply TensorAdapter_init_Forall2 in Hinit as (handlers & Hbuilt & ->).
  simpl in *. split; [symmetry; by eapply Forall2_length|].
  destruct (Forall2_lookup_r _ _ _ _ _ Hbuilt Hi) as ([n rep] & Hitem & Hn & Hh).
  simpl in *. subst n. exists rep.
  destruct rep as [|d|column|column]; simpl in Hh; try done.
  - destruct Hh as (vt & (f & Hf & Ht & Hsup) & Hh).
    destruct (field_by_name_position _ _ _ Hf) as (j & Hj & Hsj & Hname).
    exists j, f. split_and!; try done.
    + simpl. exists vt. split; [by exists f|done].
    + destruct (default_value d); [destruct Hh as (v & _ & ->)|subst h]; done.
    + destruct (default_value d); [destruct Hh as (v & _ & ->)|subst h]; done.
  - destruct Hh as (vt & (f & Hf & Ht & Hsup) & ->).
    destruct (field_by_name_position _ _ _ Hf) as (j & Hj & Hsj & Hname).
    exists j, f. split_and!; try done. simpl. exists vt. split; [by exists f|done].
Qed.

Lemma built_handlers_witness :
  length (_type_handlers TestData.two_adapter) = length TestData.two_outputs
  /\ exists rep j f,
      TestData.two_outputs !! 1 = Some ("bytes_default_filled_dense", rep)
      /\ handler_built_for (RecordBatch_schema TestData.two_columns) rep
           (DefaultFillingDenseTensorHandler
              (mkBaseDense 1 tf_string [None; Some 2] 2)
              (mkArray binary [BytesV "kk"; BytesV "kk"]))
      /\ 1%Z = Z.of_nat j
      /\ RecordBatch_schema TestData.two_columns !! j = Some f
      /\ name f = representation_column rep
      /\ true = match rep with dense_tensor _ => true | _ => false end.
Proof.
  apply (built_handlers
           (mkTensorAdapterConfig (RecordBatch_schema TestData.two_columns)
              TestData.two_outputs)
           TestData.two_adapter 1 "bytes_default_filled_dense"
           (DefaultFillingDenseTensorHandler
              (mkBaseDense 1 tf_string [None; Some 2] 2)
              (mkArray binary [BytesV "kk"; BytesV "kk"]))).
  - reflexivity.
  - reflexivity.
Defined.

(** ** The two dicts the adapter writes *)

Lemma type_specs_notin (handlers : list (string * TypeHandler))
    (specs : gmap string TypeSpec) (n : string) :
  n ∉ (fst <$> handlers) ->
  foldl (fun m nh => <[fst nh := type_spec (snd nh)]> m) specs handlers !! n
  = specs !! n.
Proof.
  revert specs. induction handlers as [|[n' h] handlers IH]; intros specs Hn;
    simpl; [done|].
  apply not_elem_of_cons in Hn as [Hne Hn]. simpl in Hne.
  rewrite IH by done. by rewrite lookup_insert_ne.
Qed.

Lemma type_specs_lookup (handlers : list (string * TypeHandler))
    (specs : gmap string TypeSpec) (n : string) (h : TypeHandler) :
  NoDup (fst <$> handlers) -> (n, h) ∈ handlers ->
  foldl (fun m nh => <[fst nh := type_spec (snd nh)]> m) specs handlers !! n
  = Some (type_spec h).
Proof.
  revert specs. induction handlers as [|[n' h'] handlers IH]; intros specs Hnd Hin.
  - by apply elem_of_nil in Hin.
  - csimpl in *. apply NoDup_cons in Hnd as [Hn' Hnd].
    apply elem_of_cons in Hin as [[= -> ->]|Hin].
    + rewrite type_specs_notin by done. by rewrite lookup_insert_eq.
    + by apply IH.
Qed.

Lemma handler_built_for_type_spec s rep h :
  handler_built_for s rep h ->
  exists vt, column_usable s (representation_column rep) vt
             /\ type_spec h = signature_of rep vt.
Proof.
  destruct rep as [|d|column|column]; simpl; try done.
  - intros (vt & Hu & Hh). exists vt. split; [done|].
    destruct (default_value d); [destruct Hh as (v & _ & ->)|subst h]; done.
  - intros (vt & Hu & ->). by exists vt.
Qed.

(** X4.  For an adapter built from outputs with distinct names, the
    signature under the name of a dense output is the tensor signature of
    shape [[None] + dims] and of the dtype of the column's elements, and the
    signature under the name of a varlen-sparse output is the sparse
    signature of shape [[None, None]] and of that dtype. *)
Theorem type_specs_by_representation (config : TensorAdapterConfig)
    (self : TensorAdapter) (tensor_name : string) (rep : TensorRepresentation) :
  TensorAdapter_init config = Ok self ->
  NoDup (fst <$> tensor_representations config) ->
  (tensor_name, rep) ∈ tensor_representations config ->
  exists vt,
    column_usable (arrow_schema config) (representation_column rep) vt
    /\ TypeSpecs self !! tensor_name = Some (signature_of rep vt).
Proof.
  destruct config as [s items]. simpl. intros Hinit Hnd Hin.
  apply TensorAdapter_init_Forall2 in Hinit as (handlers & Hbuilt & ->).
  unfold TypeSpecs. simpl.
  apply list_elem_of_lookup in Hin as (i & Hi).
  destruct (Forall2_lookup_l _ _ _ _ _ Hbuilt Hi) as ([n h] & Hh & Hn & Hfor).
  simpl in *. subst n.
  destruct (handler_built_for_type_spec _ _ _ Hfor) as (vt & Hu & Hspec).
  exists vt. split; [done|]. rewrite <- Hspec.
  apply type_specs_lookup; [|by eapply list_elem_of_lookup_2].
  assert (Hnames : fst <$> handlers = fst <$> items).
  { clear -Hbuilt. induction Hbuilt as [|item nh items handlers [Hn _] _ IH];
      csimpl; [done|]. by rewrite Hn, IH. }
  by rewrite Hnames.
Qed.

Lemma type_specs_by_representation_witness :
  exists vt,
    column_usable (RecordBatch_schema TestData.two_columns) "bytes_ragged" vt
    /\ TypeSpecs TestData.two_adapter !! "bytes_default_filled_dense"
       = Some (TensorSpec [None; Some 2] (_ArrowTypeToTfDtype vt)).
Proof.
  apply (type_specs_by_representation
           (mkTensorAdapterConfig (RecordBatch_schema TestData.two_columns)
              TestData.two_outputs)
           TestData.two_adapter "bytes_default_filled_dense"
           (dense_tensor
              (mkDenseTensor "bytes_ragged" [2] (Some (bytes_value "kk"))))).
  - reflexivity.
  - apply (bool_decide_unpack _). vm_compute. exact I.
  - right. left.
Defined.

(** ** Failures of a conversion *)


Lemma to_batch_tensors_loop_fail_fast before tensor_name h after rb result calls e :
  Forall (fun nh => is_Ok (GetTensor (snd nh) rb) = true) before ->
  GetTensor h rb = Raise e ->
  to_batch_tensors_loop (before ++ (tensor_name, h) :: after) rb result calls
  = (calls ++ (fst <$> before) ++ [tensor_name],
     Raise (ErrorRaisedWhenHandlingTensor tensor_name e)).
Proof.
  intros Hbefore Hraise. revert result calls.
  induction Hbefore as [|[n h'] before Hok _ IH]; intros result calls; simpl.
  - by rewrite Hraise.
  - simpl in Hok. destruct (GetTensor h' rb) as [t|]; [|done].
    rewrite IH, <- app_assoc. done.
Qed.




(** X6.  Conversion stops at the first handler that raises: the handlers
    before it were called, the handlers after it are not, and the error is
    the handler's error wrapped with the name of its output. *)
Theorem conversion_fails_fast (self : TensorAdapter) (rb : RecordBatch)
    (before after : list (string * TypeHandler)) (tensor_name : string)
    (h : TypeHandler) (e : Exception) :
  RecordBatch_schema rb = _arrow_schema self ->
  _type_handlers self = before ++ (tensor_name, h) :: after ->
  Forall (fun nh => is_Ok (GetTensor (snd nh) rb) = true) before ->
  GetTensor h rb = Raise e ->
  ToBatchTensors_traced self rb
  = ((fst <$> before) ++ [tensor_name],
     Raise (ErrorRaisedWhenHandlingTensor tensor_name e)).
Proof.
  intros Hschema Hhandlers Hbefore Hraise.
  unfold ToBatchTensors_traced, Schema_equals.
  rewrite bool_decide_eq_true_2 by done. simpl. rewrite Hhandlers.
  by rewrite (to_batch_tensors_loop_fail_fast _ _ _ _ _ _ _ e).
Qed.

Lemma conversion_fails_fast_witness :
  ToBatchTensors_traced TestData.failing_adapter TestData.dense_batch_with_null
  = (["early"; "dense"],
     Raise (ErrorRaisedWhenHandlingTensor "dense"
              (SizeMismatch TestData.dense_column_with_null
                 (TensorSpec [None; Some 4] tf_int64) 8 4))).
Proof.
  apply (conversion_fails_fast TestData.failing_adapter
           TestData.dense_batch_with_null
           [("early", VarLenSparseTensorHandler 0 tf_int64)]
           [("late", VarLenSparseTensorHandler 0 tf_int64)]
           "dense" TestData.dense_handler).
  - reflexivity.
  - reflexivity.
  - repeat constructor.
  - reflexivity.
Defined.

(** ** The outputs of a conversion *)

Lemma to_batch_tensors_loop_Ok handlers rb (result res : gmap string Tensor) calls :
  snd (to_batch_tensors_loop handlers rb result calls) = Ok res ->
  Forall (fun nh => is_Ok (GetTensor (snd nh) rb) = true) handlers
  /\ dom res = dom result ∪ list_to_set (fst <$> handlers)
  /\ (forall n, n ∉ (fst <$> handlers) -> res !! n = result !! n)
  /\ (NoDup (fst <$> handlers) ->
      forall n h, (n, h) ∈ handlers ->
        exists t, GetTensor h rb = Ok t /\ res !! n = Some t).
Proof.
  revert result calls.
  induction handlers as [|[n h] handlers IH]; intros result calls; csimpl.
  - intros [= <-]. split_and!; try done.
    + by rewrite (right_id_L ∅ (∪)).
    + intros _ n h Hin. by apply elem_of_nil in Hin.
  - destruct (GetTensor h rb) as [t|e] eqn:Hget; [|done].
    intros Hloop. apply IH in Hloop as (Hall & Hdom & Hother & Hin).
    split_and!.
    + constructor; [|done]. simpl. by rewrite Hget.
    + rewrite Hdom, dom_insert_L.
      by rewrite (comm_L (∪) {[n]} (dom result)), (assoc_L (∪)).
    + intros n' Hn'. apply not_elem_of_cons in Hn' as [Hne Hn'].
      rewrite Hother by done. by rewrite lookup_insert_ne.
    + intros Hnd n' h' Hin'. apply NoDup_cons in Hnd as [Hn Hnd].
      apply elem_of_cons in Hin' as [[= -> ->]|Hin'].
      * exists t. split; [done|]. rewrite Hother by done.
        by rewrite lookup_insert_eq.
      * by apply Hin.
Qed.

(** X7.  A conversion that succeeds called every handler with success and
    returns a dict whose keys are exactly the names of the outputs; when the
    names are distinct the dict has one entry per output and the entry of an
    output is what its handler returned. *)
Theorem converted_outputs (self : TensorAdapter) (rb : RecordBatch)
    (result : gmap string Tensor) :
  ToBatchTensors self rb = Ok result ->
  RecordBatch_schema rb = _arrow_schema self
  /\ Forall (fun nh => is_Ok (GetTensor (snd nh) rb) = true) (_type_handlers self)
  /\ dom result = list_to_set (fst <$> _type_handlers self)
  /\ (NoDup (fst <$> _type_handlers self) ->
      size result = length (_type_handlers self)
      /\ forall n h, (n, h) ∈ _type_handlers self ->
           exists t, GetTensor h rb = Ok t /\ result !! n = Some t).
Proof.
  unfold ToBatchTensors, ToBatchTensors_traced, Schema_equals.
  destruct (decide (RecordBatch_schema rb = _arrow_schema self)) as [Heq|Hne].
  - rewrite bool_decide_eq_true_2 by done. simpl. intros Hloop.
    apply to_batch_tensors_loop_Ok in Hloop as (Hall & Hdom & _ & Hin).
    rewrite dom_empty_L, (left_id_L ∅ (∪)) in Hdom.
    split_and!; try done. intros Hnd. split; [|by apply Hin].
    rewrite <- size_dom, Hdom, size_list_to_set by done.
    by rewrite length_fmap.
  - by rewrite bool_decide_eq_false_2.
Qed.

Lemma converted_outputs_witness :
  RecordBatch_schema TestData.two_columns = _arrow_schema TestData.two_adapter
  /\ Forall (fun nh => is_Ok (GetTensor (snd nh) TestData.two_columns) = true)
       (_type_handlers TestData.two_adapter)
  /\ dom TestData.two_tensors
     = list_to_set (fst <$> _type_handlers TestData.two_adapter)
  /\ (NoDup (fst <$> _type_handlers TestData.two_adapter) ->
      size TestData.two_tensors = length (_type_handlers TestData.two_adapter)
      /\ forall n h, (n, h) ∈ _type_handlers TestData.two_adapter ->
           exists t, GetTensor h TestData.two_columns = Ok t
                     /\ TestData.two_tensors !! n = Some t).
Proof.
  apply (converted_outputs TestData.two_adapter TestData.two_columns
           TestData.two_tensors).
  reflexivity.
Defined.

(** ** Dense conversion for every shape *)

Lemma np_prod_zero (dims : list nat) : np_prod dims = 0 <-> 0 ∈ dims.
Proof.
  induction dims as [|d dims IH]; simpl.
  - split; [done|]. intros H. by apply elem_of_nil in H.
  - rewrite elem_of_cons, <- IH. lia.
Qed.

Lemma join_nil_Forall {A} (ls : list (list A)) :
  mjoin ls = [] <-> Forall (fun l => l = []) ls.
Proof.
  induction ls as [|l ls IH]; csimpl.
  - split; [constructor|done].
  - rewrite Forall_cons, <- IH. split.
    + by intros [-> ->]%app_eq_nil.
    + by intros [-> ->].
Qed.

(** X8.  For dimensions of any rank (none, for one scalar per row, included)
    and a column whose rows are all present with [product(dims)] elements
    each, the plain dense handler returns a value of shape
    [[batch_size] + dims] holding the rows one after the other; the elements
    of row [r] sit at the flat positions from [r * product(dims)]. *)
Theorem dense_any_rank (s : Schema) (d : DenseTensor) (h : TypeHandler)
    (rb : RecordBatch) (vt : ArrowType) (ls : list (list Value)) :
  new _DenseTensorHandler s (dense_tensor d) = Ok h ->
  RecordBatch_column rb (get_field_index s (column_name d))
    = Ok (mkListArray vt (Some <$> ls)) ->
  Forall (fun l => length l = np_prod (shape_dim d)) ls ->
  GetTensor h rb
    = Ok (DenseValue (mkndarray (length ls :: shape_dim d)
                        (to_pandas_dtype vt) (mjoin ls)))
  /\ (forall r p l v,
        ls !! r = Some l -> l !! p = Some v ->
        mjoin ls !! (r * np_prod (shape_dim d) + p) = Some v).
Proof.
  intros Hnew Hcol Hlen.
  apply DenseTensorHandler_init_Ok in Hnew as (f & _ & ->). simpl in *.
  assert (Hrows : row_values <$> (Some <$> ls) = ls).
  { rewrite <- list_fmap_compose. apply list_fmap_id. }
  split.
  - unfold DenseTensorHandler_GetTensor. simpl. rewrite Hcol. simpl.
    rewrite ListArrayToTensor_match; simpl; rewrite Hrows, ?length_fmap.
    + done.
    + by rewrite length_join, (sum_list_fmap_same (np_prod (shape_dim d))).
  - intros r p l v Hl Hv.
    assert (p < np_prod (shape_dim d)).
    { rewrite <- (proj1 (Forall_lookup _ _) Hlen r l Hl). by eapply lookup_lt_Some. }
    apply join_lookup_Some_same_length'; eauto.
Qed.

Lemma dense_any_rank_witness :
  GetTensor (DenseTensorHandler (mkBaseDense 0 tf_int32 [None] 1))
    [("input", mkListArray int32 [Some [IntV 7]; Some [IntV 8]; Some [IntV 9]])]
    = Ok (DenseValue (mkndarray [3] np_int32 [IntV 7; IntV 8; IntV 9]))
  /\ (forall r p l v,
        [[IntV 7]; [IntV 8]; [IntV 9]] !! r = Some l -> l !! p = Some v ->
        [IntV 7; IntV 8; IntV 9] !! (r * 1 + p) = Some v).
Proof.
  apply (dense_any_rank [field "input" (list_ int32)]
           (mkDenseTensor "input" [] None)
           (DenseTensorHandler (mkBaseDense 0 tf_int32 [None] 1))
           [("input",
             mkListArray int32 [Some [IntV 7]; Some [IntV 8]; Some [IntV 9]])]
           int32 [[IntV 7]; [IntV 8]; [IntV 9]]).
  - reflexivity.
  - reflexivity.
  - repeat constructor.
Defined.

(** X9.  When one of the dimensions is 0 the plain dense handler succeeds
    exactly on the columns whose rows are all empty or null, null rows
    included, and returns a value without elements of shape
    [[batch_size] + dims]. *)
Theorem dense_zero_dimension (s : Schema) (d : DenseTensor) (h : TypeHandler)
    (rb : RecordBatch) (column : ListArray) :
  new _DenseTensorHandler s (dense_tensor d) = Ok h ->
  RecordBatch_column rb (get_field_index s (column_name d)) = Ok column ->
  0 ∈ shape_dim d ->
  (is_Ok (GetTensor h rb) = true
   <-> Forall (fun row => row = None \/ row = Some []) (rows column))
  /\ (Forall (fun row => row = None \/ row = Some []) (rows column) ->
      GetTensor h rb
      = Ok (DenseValue (mkndarray (length (rows column) :: shape_dim d)
                          (to_pandas_dtype (value_type column)) []))).
Proof.
  intros Hnew Hcol Hzero. apply np_prod_zero in Hzero.
  apply DenseTensorHandler_init_Ok in Hnew as (f & _ & ->). simpl in *.
  unfold DenseTensorHandler_GetTensor. simpl. rewrite Hcol. simpl.
  assert (Hempty : Forall (fun row => row = None \/ row = Some []) (rows column)
                   <-> mjoin (row_values <$> rows column) = []).
  { rewrite join_nil_Forall, Forall_fmap. apply Forall_proper; [|done].
    intros [[|v l]|]; simpl; split; try done; try (by intros [?|?]); eauto. }
  assert (Hok : mjoin (row_values <$> rows column) = [] ->
    _ListArrayToTensor
      (mkBaseDense (get_field_index s (column_name d))
         (_ArrowTypeToTfDtype (snd (nest_depth_loop (type f) 0)))
         (None :: (Some <$> shape_dim d)) (np_prod (shape_dim d))) column
    = Ok (DenseValue (mkndarray (length (rows column) :: shape_dim d)
                        (to_pandas_dtype (value_type column)) []))).
  { intros Hnil. rewrite ListArrayToTensor_match; simpl; rewrite Hnil, ?Hzero.
    - done.
    - simpl. lia. }
  split.
  - rewrite Hempty. split.
    + intros Hres.
      destruct (decide (length (mjoin (row_values <$> rows column))
                        = length (rows column) * np_prod (shape_dim d)))
        as [Heq|Hne].
      * rewrite Hzero, Nat.mul_0_r in Heq. by apply length_zero_iff_nil.
      * by rewrite ListArrayToTensor_mismatch in Hres.
    + intros Hnil. by rewrite Hok.
  - intros Hall. apply Hok. by apply Hempty.
Qed.

Lemma dense_zero_dimension_witness :
  (is_Ok (GetTensor (DenseTensorHandler (mkBaseDense 0 tf_int32 [None; Some 0] 0))
            [("input", mkListArray int32 [None; Some []])]) = true
   <-> Forall (fun row => row = None \/ row = Some []) [None; Some ([] : list Value)])
  /\ (Forall (fun row => row = None \/ row = Some [])
        [None; Some ([] : list Value)] ->
      GetTensor (DenseTensorHandler (mkBaseDense 0 tf_int32 [None; Some 0] 0))
        [("input", mkListArray int32 [None; Some []])]
      = Ok (DenseValue (mkndarray [2; 0] np_int32 []))).
Proof.
  apply (dense_zero_dimension [field "input" (list_ int32)]
           (mkDenseTensor "input" [0] None)
           (DenseTensorHandler (mkBaseDense 0 tf_int32 [None; Some 0] 0))
           [("input", mkListArray int32 [None; Some []])]
           (mkListArray int32 [None; Some []])).
  - reflexivity.
  - reflexivity.
  - left.
Defined.

(** ** Default filling *)

Lemma FillNullLists_no_null (column : ListArray) (fill : Array) :
  Forall is_Some (rows column) -> FillNullLists column fill = column.
Proof.
  destruct column as [vt rws]. unfold FillNullLists. simpl. intros Hall.
  f_equal. induction Hall as [|row rws [l ->] _ IH]; csimpl; [done|].
  by rewrite IH.
Qed.

(** X10.  On a column without null rows the default-filling handler returns
    what the plain handler with the same slots returns, value or error: the
    default plays no part. *)
Theorem default_filling_without_nulls (base : BaseDenseTensorHandler)
    (fill : Array) (rb : RecordBatch) (column : ListArray) :
  RecordBatch_column rb (_column_index base) = Ok column ->
  Forall is_Some (rows column) ->
  GetTensor (DefaultFillingDenseTensorHandler base fill) rb
  = GetTensor (DenseTensorHandler base) rb.
Proof.
  intros Hcol Hall. simpl.
  unfold DefaultFillingDenseTensorHandler_GetTensor, DenseTensorHandler_GetTensor.
  rewrite Hcol. simpl. by rewrite FillNullLists_no_null.
Qed.

Lemma default_filling_without_nulls_witness :
  GetTensor
    (DefaultFillingDenseTensorHandler (mkBaseDense 0 tf_int64 [None; Some 4] 4)
       (mkArray int64 (TestData.ints [0; 0; 0; 0]%Z)))
    TestData.dense_batch
  = GetTensor TestData.dense_handler TestData.dense_batch.
Proof.
  apply (default_filling_without_nulls (mkBaseDense 0 tf_int64 [None; Some 4] 4)
           (mkArray int64 (TestData.ints [0; 0; 0; 0]%Z))
           TestData.dense_batch TestData.dense_column).
  - reflexivity.
  - repeat constructor; by eexists.
Defined.



(** ** Well-formed values *)




(** ** Sparse values *)

Lemma VarLenSparseTensorHandler_GetTensor_Ok (column_index : Z)
    (rb : RecordBatch) (column : ListArray) :
  RecordBatch_column rb column_index = Ok column ->
  VarLenSparseTensorHandler_GetTensor column_index rb
  = Ok (SparseTensorValue (coordinates_of (row_values <$> rows column))
          (mkndarray [length (mjoin (row_values <$> rows column))]
             (to_pandas_dtype (value_type column))
             (mjoin (row_values <$> rows column)))
          [length (rows column);
           max_list (length <$> (row_values <$> rows column))]).
Proof.
  intros Hcol. unfold VarLenSparseTensorHandler_GetTensor. rewrite Hcol. simpl.
  unfold reshape_n_2, nd_size. simpl.
  rewrite length_coo_from, Nat.eqb_refl, pairs_coo_from. simpl.
  by rewrite max_row_length_max_list.
Qed.

(** X13.  The coordinates of a sparse value lie inside its dense shape, and
    the dense shape is tight: when there is a coordinate at all, some row
    reaches the last column of the shape. *)
Theorem sparse_within_dense_shape (column_index : Z) (dtype : DType)
    (rb : RecordBatch) (indices : list (nat * nat)) (values : ndarray)
    (dense_shape : list nat) :
  GetTensor (VarLenSparseTensorHandler column_index dtype) rb
    = Ok (SparseTensorValue indices values dense_shape) ->
  exists n m,
    dense_shape = [n; m]
    /\ (forall r p, (r, p) ∈ indices -> r < n /\ p < m)
    /\ (indices <> [] -> 0 < m /\ exists r, (r, m - 1) ∈ indices).
Proof.
  simpl. intros Hget.
  destruct (RecordBatch_column rb column_index) as [column|e] eqn:Hcol.
  - rewrite (VarLenSparseTensorHandler_GetTensor_Ok _ _ column Hcol) in Hget.
    injection Hget as <- <- <-.
    set (rws := row_values <$> rows column).
    exists (length (rows column)), (max_list (length <$> rws)).
    split_and!; [done| |].
    + intros r p Hin. apply list_elem_of_lookup in Hin as (k & Hk).
      apply coordinates_of_lookup in Hk as (row & Hrow & Hlt & _). split.
      * apply lookup_lt_Some in Hrow. subst rws. by rewrite length_fmap in Hrow.
      * eapply Nat.lt_le_trans; [exact Hlt|]. apply max_list_elem_of_le.
        apply list_elem_of_fmap. exists row. split; [done|].
        by eapply list_elem_of_lookup_2.
    + intros Hne.
      destruct (coordinates_of rws) as [|[r p] rest] eqn:Hcoords; [done|].
      assert (Hk : coordinates_of rws !! 0 = Some (r, p)) by by rewrite Hcoords.
      apply coordinates_of_lookup in Hk as (row & Hrow & Hlt & _).
      assert (Hnonempty : length <$> rws <> []).
      { intros Hnil. apply fmap_nil_inv in Hnil. by rewrite Hnil in Hrow. }
      pose proof (max_list_elem_of _ Hnonempty) as Hmax.
      apply list_elem_of_fmap in Hmax as (row' & Hlen & Hin').
      apply list_elem_of_lookup in Hin' as (r' & Hrow').
      assert (Hpos : 0 < max_list (length <$> rws)).
      { eapply Nat.le_lt_trans with p; [lia|].
        eapply Nat.lt_le_trans; [exact Hlt|]. apply max_list_elem_of_le.
        apply list_elem_of_fmap. exists row. split; [done|].
        by eapply list_elem_of_lookup_2. }
      split; [done|]. exists r'. rewrite <- Hcoords. apply list_elem_of_lookup.
      exists (sum_list (length <$> take r' rws)
              + (max_list (length <$> rws) - 1)).
      apply coordinates_of_lookup. exists row'. split_and!; [done|lia|done].
  - unfold VarLenSparseTensorHandler_GetTensor in Hget. by rewrite Hcol in Hget.
Qed.

Lemma sparse_within_dense_shape_witness :
  exists n m,
    [5; 2] = [n; m]
    /\ (forall r p, (r, p) ∈ [(0, 0); (0, 1); (2, 0); (4, 0)] -> r < n /\ p < m)
    /\ ([(0, 0); (0, 1); (2, 0); (4, 0)] <> [] ->
        0 < m /\ exists r, (r, m - 1) ∈ [(0, 0); (0, 1); (2, 0); (4, 0)]).
Proof.
  apply (sparse_within_dense_shape 0 tf_int64 TestData.sparse_batch
           [(0, 0); (0, 1); (2, 0); (4, 0)]
           (mkndarray [4] np_int64 (TestData.ints [1; 2; 3; 5]%Z)) [5; 2]).
  reflexivity.
Defined.

(** X14.  The sparse handler does not tell a null row from an empty one: a
    column and the column in which every null row is replaced with an empty
    list give the same sparse value. *)
Theorem sparse_null_as_empty (column_index : Z) (dtype : DType)
    (rb rb' : RecordBatch) (column : ListArray) :
  RecordBatch_column rb column_index = Ok column ->
  RecordBatch_column rb' column_index
    = Ok (mkListArray (value_type column)
            ((fun row => Some (row_values row)) <$> rows column)) ->
  GetTensor (VarLenSparseTensorHandler column_index dtype) rb'
  = GetTensor (VarLenSparseTensorHandler column_index dtype) rb.
Proof.
  intros Hcol Hcol'. simpl.
  rewrite (VarLenSparseTensorHandler_GetTensor_Ok _ _ _ Hcol).
  rewrite (VarLenSparseTensorHandler_GetTensor_Ok _ _ _ Hcol'). simpl.
  rewrite <- list_fmap_compose, length_fmap.
  assert (Hrows : row_values ∘ (fun row => Some (row_values row)) <$> rows column
                  = row_values <$> rows column).
  { apply list_fmap_ext. by intros i [l|] _. }
  by rewrite Hrows.
Qed.

Lemma sparse_null_as_empty_witness :
  GetTensor (VarLenSparseTensorHandler 0 tf_int64)
    [("input",
      mkListArray int64
        [Some (TestData.ints [1; 2]); Some []; Some (TestData.ints [3]);
         Some []; Some (TestData.ints [5])]%Z)]
  = GetTensor (VarLenSparseTensorHandler 0 tf_int64) TestData.sparse_batch.
Proof.
  apply (sparse_null_as_empty 0 tf_int64 TestData.sparse_batch
           [("input",
             mkListArray int64
               [Some (TestData.ints [1; 2]); Some []; Some (TestData.ints [3]);
                Some []; Some (TestData.ints [5])]%Z)]
           TestData.sparse_column).
  - reflexivity.
  - reflexivity.
Defined.

(** ** The order of the outputs *)

Lemma Forall2_permutation {A B} (R : A -> B -> Prop) (l l' : list A) (k : list B) :
  l ≡ₚ l' -> Forall2 R l k -> exists k', k ≡ₚ k' /\ Forall2 R l' k'.
Proof.
  intros Hperm. revert k.
  induction Hperm as [|x l l' _ IH|x y l|l l' l'' _ IH1 _ IH2]; intros k Hk.
  - apply Forall2_nil_inv_l in Hk as ->. by exists [].
  - apply Forall2_cons_inv_l in Hk as (b & k0 & Hb & Hk0 & ->).
    destruct (IH _ Hk0) as (k' & Hperm' & Hk').
    exists (b :: k'). split; [by constructor|by constructor].
  - apply Forall2_cons_inv_l in Hk as (b & k0 & Hb & Hk0 & ->).
    apply Forall2_cons_inv_l in Hk0 as (c & k1 & Hc & Hk1 & ->).
    exists (c :: b :: k1). split; [apply perm_swap|by repeat constructor].
  - destruct (IH1 _ Hk) as (k' & Hperm' & Hk').
    destruct (IH2 _ Hk') as (k'' & Hperm'' & Hk'').
    exists k''. split; [by etrans|done].
Qed.

Lemma type_specs_lookup_inv (handlers : list (string * TypeHandler))
    (specs : gmap string TypeSpec) (n : string) (spec : TypeSpec) :
  foldl (fun m nh => <[fst nh := type_spec (snd nh)]> m) specs handlers !! n
    = Some spec ->
  (exists h, (n, h) ∈ handlers /\ spec = type_spec h) \/ specs !! n = Some spec.
Proof.
  revert specs. induction handlers as [|[n' h'] handlers IH]; intros specs; simpl.
  - by right.
  - intros H. apply IH in H as [(h & Hin & ->)|H].
    + left. exists h. split; [by right|done].
    + destruct (decide (n' = n)) as [->|Hne].
      * rewrite lookup_insert_eq in H. injection H as <-.
        left. exists h'. split; [left|done].
      * rewrite lookup_insert_ne in H by done. by right.
Qed.

Lemma type_specs_of_permutation (handlers handlers' : list (string * TypeHandler)) :
  NoDup (fst <$> handlers) -> handlers ≡ₚ handlers' ->
  type_specs_of handlers' = type_specs_of handlers.
Proof.
  intros Hnd Hperm.
  assert (Hnd' : NoDup (fst <$> handlers')) by by rewrite <- Hperm.
  apply map_eq. intros n. apply option_eq. intros spec. unfold type_specs_of.
  split; intros H;
    (apply type_specs_lookup_inv in H as [(h & Hin & ->)|H]; [|done]).
  - apply type_specs_lookup; [done|]. by rewrite Hperm.
  - apply type_specs_lookup; [done|]. by rewrite <- Hperm.
Qed.

Lemma to_batch_tensors_loop_all_Ok handlers rb result calls :
  Forall (fun nh => is_Ok (GetTensor (snd nh) rb) = true) handlers ->
  is_Ok (snd (to_batch_tensors_loop handlers rb result calls)) = true.
Proof.
  intros Hall. revert result calls.
  induction Hall as [|[n h] handlers Hok _ IH]; intros result calls; simpl.
  - done.
  - simpl in Hok. destruct (GetTensor h rb); [apply IH|done].
Qed.

(** X15.  The iteration order of the dict of representations does not
    matter for a set of outputs with distinct names: two orders of the same
    items build adapters with the same handlers up to order and the same
    signatures, the two adapters convert the same batches, and on such a batch
    they return the same dict. *)
Theorem output_order_irrelevant (s : Schema)
    (items items' : list (string * TensorRepresentation)) (self : TensorAdapter) :
  items ≡ₚ items' ->
  NoDup (fst <$> items) ->
  TensorAdapter_init (mkTensorAdapterConfig s items) = Ok self ->
  exists self',
    TensorAdapter_init (mkTensorAdapterConfig s items') = Ok self'
    /\ _type_handlers self ≡ₚ _type_handlers self'
    /\ TypeSpecs self' = TypeSpecs self
    /\ forall rb result,
        ToBatchTensors self rb = Ok result ->
        ToBatchTensors self' rb = Ok result.
Proof.
  intros Hperm Hnd Hinit.
  apply TensorAdapter_init_Forall2 in Hinit as (handlers & Hbuilt & ->).
  destruct (Forall2_permutation _ _ _ _ Hperm Hbuilt)
    as (handlers' & Hperm' & Hbuilt').
  assert (Hnames : fst <$> handlers = fst <$> items).
  { clear -Hbuilt. induction Hbuilt as [|item nh its hs [Hn _] _ IH];
      csimpl; [done|]. by rewrite Hn, IH. }
  assert (Hndh : NoDup (fst <$> handlers)) by by rewrite Hnames.
  assert (Hndh' : NoDup (fst <$> handlers')) by by rewrite <- Hperm'.
  exists (mkTensorAdapter s handlers' (type_specs_of handlers')).
  split_and!.
  - apply TensorAdapter_init_Forall2. by exists handlers'.
  - done.
  - unfold TypeSpecs. simpl. by apply type_specs_of_permutation.
  - intros rb result.
    unfold ToBatchTensors, ToBatchTensors_traced, Schema_equals. simpl.
    destruct (bool_decide (RecordBatch_schema rb = s)); simpl; [|done].
    intros Hloop.
    apply to_batch_tensors_loop_Ok in Hloop as (Hall & _ & Hother & Hin).
    assert (Hall' : Forall (fun nh => is_Ok (GetTensor (snd nh) rb) = true)
                      handlers') by by rewrite <- Hperm'.
    pose proof (to_batch_tensors_loop_all_Ok handlers' rb ∅ [] Hall') as Hok.
    destruct (snd (to_batch_tensors_loop handlers' rb ∅ [])) as [result'|]
      eqn:Hloop'; [|done].
    apply to_batch_tensors_loop_Ok in Hloop' as (_ & _ & Hother' & Hin').
    f_equal. apply map_eq. intros n.
    destruct (decide (n ∈ (fst <$> handlers))) as [Hn|Hn].
    + apply list_elem_of_fmap in Hn as ([n' h] & -> & Hh). simpl.
      destruct (Hin Hndh _ _ Hh) as (t & Ht & ->).
      rewrite Hperm' in Hh.
      destruct (Hin' Hndh' _ _ Hh) as (t' & Ht' & ->). congruence.
    + rewrite Hother by done. rewrite Hperm' in Hn. by rewrite Hother'.
Qed.

Lemma output_order_irrelevant_witness :
  exists self',
    TensorAdapter_init
      (mkTensorAdapterConfig (RecordBatch_schema TestData.two_columns)
         (reverse TestData.two_outputs)) = Ok self'
    /\ _type_handlers TestData.two_adapter ≡ₚ _type_handlers self'
    /\ TypeSpecs self' = TypeSpecs TestData.two_adapter
    /\ forall rb result,
        ToBatchTensors TestData.two_adapter rb = Ok result ->
        ToBatchTensors self' rb = Ok result.
Proof.
  apply (output_order_irrelevant (RecordBatch_schema TestData.two_columns)
           TestData.two_outputs (reverse TestData.two_outputs)
           TestData.two_adapter).
  - apply perm_swap.
  - apply (bool_decide_unpack _). vm_compute. exact I.
  - reflexivity.
Defined.

(** ** What the dense conversion does not look at *)

(** X16.  The dense conversion checks the total number of elements only, not
    the length of each row: two columns of the same element type with the same
    number of rows and the same elements in the same order convert alike,
    wherever the boundaries between their rows lie. *)
Theorem dense_ignores_row_boundaries (base : BaseDenseTensorHandler)
    (rb rb' : RecordBatch) (column column' : ListArray) :
  RecordBatch_column rb (_column_index base) = Ok column ->
  RecordBatch_column rb' (_column_index base) = Ok column' ->
  value_type column = value_type column' ->
  length (rows column) = length (rows column') ->
  arr_values (flatten column) = arr_values (flatten column') ->
  is_Ok (GetTensor (DenseTensorHandler base) rb)
  = is_Ok (GetTensor (DenseTensorHandler base) rb')
  /\ (forall t,
        GetTensor (DenseTensorHandler base) rb = Ok t ->
        GetTensor (DenseTensorHandler base) rb' = Ok t).
Proof.
  intros Hcol Hcol' Hvt Hlen Hvalues. simpl.
  unfold DenseTensorHandler_GetTensor. rewrite Hcol, Hcol'. simpl.
  unfold _ListArrayToTensor, np_asarray. simpl in *.
  rewrite <- Hvalues, <- Hlen, <- Hvt.
  destruct (negb _); simpl; [by split|]. by split.
Qed.

Lemma dense_ignores_row_boundaries_witness :
  is_Ok (GetTensor TestData.dense_handler TestData.dense_batch)
  = is_Ok (GetTensor TestData.dense_handler
             [("input",
               mkListArray int64
                 [Some (TestData.ints [1]);
                  Some (TestData.ints [2; 3; 4; 5; 6; 7; 8])]%Z)])
  /\ (forall t,
        GetTensor TestData.dense_handler TestData.dense_batch = Ok t ->
        GetTensor TestData.dense_handler
          [("input",
            mkListArray int64
              [Some (TestData.ints [1]);
               Some (TestData.ints [2; 3; 4; 5; 6; 7; 8])]%Z)] = Ok t).
Proof.
  apply (dense_ignores_row_boundaries (mkBaseDense 0 tf_int64 [None; Some 4] 4)
           TestData.dense_batch
           [("input",
             mkListArray int64
               [Some (TestData.ints [1]);
                Some (TestData.ints [2; 3; 4; 5; 6; 7; 8])]%Z)]
           TestData.dense_column
           (mkListArray int64
              [Some (TestData.ints [1]);
               Some (TestData.ints [2; 3; 4; 5; 6; 7; 8])]%Z)).
  - reflexivity.
  - reflexivity.
  - reflexivity.
  - reflexivity.
  - reflexivity.
Defined.

(** ** Failures of the construction *)



